(** * MongoBox: lifecycle of a disposable mongod instance

    A shallow embedding of [mongobox/mongobox.py].  The class [MongoBox]
    becomes a record, its methods become functions that pass the instance
    and the outside world explicitly and return an outcome (a value or a
    raised exception) next to the new instance and the new world.

    The outside world is split in two:
    - [World] is what the methods change: the clock, the filesystem and the
      log of the system calls made so far;
    - [Env] is what they only observe: the two helpers of [mongobox/utils.py],
      the platform name, and the behaviour of the child processes (what
      [poll()] and [wait()] report, when the port accepts connections, what
      [mongorestore] exits with and prints).

    Time is counted in milliseconds.  Only [time.sleep] advances the clock.
    A signalled child terminates, so that [wait()] returns.

    The model follows the calls that go well and the failures that the code
    handles or reports.  It leaves out the OSError of [os.mkdir] under a
    missing parent, of [mkdtemp] and of [Popen] on a binary that cannot be
    executed, and the OverflowError of [connect] on a port outside 0..65535,
    which the loop does not catch.  A theorem that one of these would touch
    says so in its hypotheses: it is about a [start()] that returned, or
    about an instance whose port is in 0..65535 ([tcp_port]).

    [send_signal] is the one of Python 3.9 and later: it polls first and
    signals only a child that is still running.  A theorem that names the
    signal assumes that the child is running when [stop()] is called; there
    every version of the subprocess module sends it. *)

From Stdlib Require Import ZArith String Ascii DecimalString DecimalPos
  DecimalZ List Lia Bool.
From stdpp Require Import gmap strings stringmap.
Import ListNotations.

Local Open Scope Z_scope.

(** ** Python values *)

(** [str(n)] for an integer. *)
Definition str (z : Z) : string := NilZero.string_of_int (Z.to_int z).

(** Truth value of [None], of a string and of an integer. *)
Definition truthy_str (o : option string) : bool :=
  match o with
  | Some s => negb (String.eqb s "")
  | None => false
  end.

Definition truthy_int (o : option Z) : bool :=
  match o with
  | Some n => negb (n =? 0)
  | None => false
  end.

(** [needle in hay] on strings. *)
Fixpoint str_in (needle hay : string) : bool :=
  String.prefix needle hay
  || match hay with
     | EmptyString => false
     | String _ rest => str_in needle rest
     end.

(** [sep.join(l)]. *)
Fixpoint join (sep : string) (l : list string) : string :=
  match l with
  | [] => ""
  | [x] => x
  | x :: rest => x +:+ sep +:+ join sep rest
  end.

Definition dquote : string := String "034" "".
Definition newline : string := String "010" "".

(** [str(datetime.timedelta(seconds=s))] for a whole number of seconds below
    one day: [H:MM:SS]. *)
Definition pad2 (n : Z) : string :=
  if n <? 10 then "0" +:+ str n else str n.

Definition str_timedelta (ms : Z) : string :=
  let s := ms / 1000 in
  str (s / 3600) +:+ ":" +:+ pad2 ((s / 60) mod 60) +:+ ":" +:+ pad2 (s mod 60).

(** ** Exceptions and outcomes *)

Inductive exn : Type :=
| AssertionError (msg : string)
| Exception (msg : string)
| CalledProcessError (returncode : Z) (cmd : list string)
| AttributeError (attr : string)
| TypeError (msg : string)
| OSError (path : string).

Inductive outcome (A : Type) : Type :=
| Ok (a : A)
| Raise (e : exn).
Arguments Ok {A} a.
Arguments Raise {A} e.

(** ** The outside world *)

Inductive node : Type := File | Dir.

Inductive signal : Type := SIGKILL | SIGTERM.

(** System calls, as logged. *)
Inductive event : Type :=
| EvMkdir (path : string)
| EvMkdtemp (path : string)
| EvSpawn (args : list string)
| EvPoll (t : Z) (status : option Z)
| EvConnect (port : Z) (t : Z) (ok : bool)
| EvSleep (ms : Z)
| EvSignal (s : signal)
| EvWait (status : Z)
| EvRmtree (path : string)
| EvTempfile (path : string)
| EvRestore (cmd : list string) (status : Z).

Record World : Type := {
  now : Z;                       (* datetime.datetime.now(), in ms *)
  fs : gmap string node;         (* paths that exist, and their kind *)
  events : list event            (* most recent first *)
}.

Record Env : Type := {
  (* utils.find_executable: the path of a program, or None *)
  find_executable : string -> option string;
  (* utils.get_free_port() *)
  get_free_port : Z;
  (* sys.platform *)
  platform : string;
  (* exit status of the child as poll() finds it at a time, None while it runs *)
  child_poll : Z -> option Z;
  (* exit status that wait() collects at a time from a child still running *)
  child_wait : Z -> Z;
  (* whether a connect to localhost:port succeeds at a time *)
  port_open : Z -> Z -> bool;
  (* exit status and standard output of the restore command *)
  mongorestore : list string -> Z * list string
}.

Definition log (e : event) (w : World) : World :=
  {| now := now w; fs := fs w; events := e :: events w |}.

Definition set_fs (m : gmap string node) (w : World) : World :=
  {| now := now w; fs := m; events := events w |}.

(** [time.sleep(ms / 1000)] *)
Definition sleep (ms : Z) (w : World) : World :=
  {| now := now w + ms; fs := fs w; events := EvSleep ms :: events w |}.

(** [os.path.exists], [os.path.isfile] *)
Definition path_exists (w : World) (p : string) : bool :=
  match fs w !! p with
  | Some _ => true
  | None => false
  end.

Definition path_isfile (w : World) (p : string) : bool :=
  match fs w !! p with
  | Some File => true
  | _ => false
  end.

(** [os.mkdir]: the path must not exist. *)
Definition os_mkdir (p : string) (w : World) : outcome unit * World :=
  match fs w !! p with
  | Some _ => (Raise (OSError p), w)
  | None => (Ok tt, log (EvMkdir p) (set_fs (<[p := Dir]> (fs w)) w))
  end.

(** A name in the temporary directory that no path has yet. *)
Definition tmp_name (w : World) : string := fresh_string "/tmp/tmp" (fs w).

(** [tempfile.mkdtemp()] *)
Definition mkdtemp (w : World) : string * World :=
  let d := tmp_name w in
  (d, log (EvMkdtemp d) (set_fs (<[d := Dir]> (fs w)) w)).

(** [tempfile.NamedTemporaryFile(mode = 'w+', delete = False)] *)
Definition NamedTemporaryFile (w : World) : string * World :=
  let f := tmp_name w in
  (f, log (EvTempfile f) (set_fs (<[f := File]> (fs w)) w)).

(** [q] is [p] or lies below the directory [p]. *)
Definition under (p q : string) : bool :=
  String.eqb p q || String.prefix (p +:+ "/") q.

(** [shutil.rmtree]: the path must be a directory; it goes with all that
    lies below it. *)
Definition rmtree (p : string) (w : World) : outcome unit * World :=
  match fs w !! p with
  | Some Dir =>
      (Ok tt, log (EvRmtree p)
                (set_fs (filter (fun kv => under p (fst kv) = false) (fs w)) w))
  | _ => (Raise (OSError p), w)
  end.

(** ** Child processes: [subprocess.Popen] *)

Record Popen : Type := {
  popen_args : list string;
  returncode : option Z
}.

Definition set_returncode (r : option Z) (p : Popen) : Popen :=
  {| popen_args := popen_args p; returncode := r |}.

Definition Popen_new (args : list string) (w : World) : Popen * World :=
  ({| popen_args := args; returncode := None |}, log (EvSpawn args) w).

Definition Popen_poll (env : Env) (p : Popen) (w : World)
  : option Z * Popen * World :=
  match returncode p with
  | Some c => (Some c, p, w)
  | None =>
      let r := child_poll env (now w) in
      (r, set_returncode r p, log (EvPoll (now w) r) w)
  end.

(** [send_signal]: it polls first, and signals only a child that the poll
    finds running. *)
Definition Popen_send_signal (env : Env) (s : signal) (p : Popen) (w : World)
  : Popen * World :=
  let '(r, p, w) := Popen_poll env p w in
  match r with
  | Some _ => (p, w)
  | None => (p, log (EvSignal s) w)
  end.

Definition Popen_wait (env : Env) (p : Popen) (w : World) : Popen * World :=
  match returncode p with
  | Some _ => (p, w)
  | None =>
      let c := child_wait env (now w) in
      (set_returncode (Some c) p, log (EvWait c) w)
  end.

(** [subprocess.check_call(cmd, stdout = f)] for the restore command. *)
Definition check_call (env : Env) (cmd : list string) (w : World)
  : outcome (list string) * World :=
  let '(status, out) := mongorestore env cmd in
  let w := log (EvRestore cmd status) w in
  if status =? 0 then (Ok out, w)
  else (Raise (CalledProcessError status cmd), w).

(** ** The class MongoBox *)

Definition MONGOD_BIN : string := "mongod".

Definition DEFAULT_ARGS : list string :=
  [ "--quiet"; "--nohttpinterface"; "--nounixsocket"; "--smallfiles";
    "--nojournal" ].

Definition devnull : string := "/dev/null".

Record MongoBox : Type := {
  mongod_bin : string;
  port : Z;
  log_path : string;
  scripting : bool;
  prealloc : bool;
  db_path : option string;
  auth : bool;
  dump_file : option string;
  process : option Popen;
  _db_path_is_temporary : option bool   (* None until start() sets it *)
}.

Definition set_process (v : option Popen) (s : MongoBox) : MongoBox :=
  {| mongod_bin := mongod_bin s; port := port s; log_path := log_path s;
     scripting := scripting s; prealloc := prealloc s; db_path := db_path s;
     auth := auth s; dump_file := dump_file s; process := v;
     _db_path_is_temporary := _db_path_is_temporary s |}.

Definition set_db_path (v : option string) (s : MongoBox) : MongoBox :=
  {| mongod_bin := mongod_bin s; port := port s; log_path := log_path s;
     scripting := scripting s; prealloc := prealloc s; db_path := v;
     auth := auth s; dump_file := dump_file s; process := process s;
     _db_path_is_temporary := _db_path_is_temporary s |}.

Definition set_temporary (v : bool) (s : MongoBox) : MongoBox :=
  {| mongod_bin := mongod_bin s; port := port s; log_path := log_path s;
     scripting := scripting s; prealloc := prealloc s; db_path := db_path s;
     auth := auth s; dump_file := dump_file s; process := process s;
     _db_path_is_temporary := Some v |}.

(** The keyword arguments of the constructor. *)
Record InitArgs : Type := {
  arg_mongod_bin : option string;
  arg_port : option Z;
  arg_log_path : option string;
  arg_db_path : option string;
  arg_scripting : bool;
  arg_prealloc : bool;
  arg_auth : bool;
  arg_dump_file : option string
}.


(** [a or b] on optional strings. *)
Definition or_str (a b : option string) : option string :=
  if truthy_str a then a else b.

(** [a or b] where [a] is an optional integer and [b] an integer. *)
Definition or_int (a : option Z) (b : Z) : Z :=
  match a with
  | Some n => if truthy_int a then n else b
  | None => b
  end.

Definition not_found_msg : string :=
  "Could not find " +:+ dquote +:+ MONGOD_BIN +:+ dquote
  +:+ " in system PATH. Make sure you have MongoDB installed.".

Definition __init__ (env : Env) (a : InitArgs) (w : World) : outcome MongoBox :=
  let bin := or_str (arg_mongod_bin a) (find_executable env MONGOD_BIN) in
  match bin with
  | Some b =>
      if String.eqb b "" then Raise (AssertionError not_found_msg)
      else
        let self :=
          {| mongod_bin := b;
             port := or_int (arg_port a) (get_free_port env);
             log_path := default devnull (or_str (arg_log_path a) (Some devnull));
             scripting := arg_scripting a;
             prealloc := arg_prealloc a;
             db_path := arg_db_path a;
             auth := arg_auth a;
             dump_file := arg_dump_file a;
             process := None;
             _db_path_is_temporary := None |} in
        if truthy_str (arg_db_path a)
           && (path_exists w (default "" (arg_db_path a))
               && path_isfile w (default "" (arg_db_path a)))
        then Raise (AssertionError
                      "DB path should be a directory, but it is a file.")
        else Ok self
  | None => Raise (AssertionError not_found_msg)
  end.

(** [running()] *)
Definition running (self : MongoBox) : bool :=
  match process self with
  | Some _ => true
  | None => false
  end.

(** [stop()] *)
Definition stop (env : Env) (self : MongoBox) (w : World)
  : outcome unit * MongoBox * World :=
  match process self with
  | None => (Ok tt, self, w)
  | Some p =>
      let '(p, w) := if String.eqb (platform env) "darwin"
                     then Popen_send_signal env SIGKILL p w
                     else Popen_send_signal env SIGTERM p w in
      let '(p, w) := Popen_wait env p w in
      let self := set_process (Some p) self in
      match _db_path_is_temporary self with
      | None => (Raise (AttributeError "_db_path_is_temporary"), self, w)
      | Some true =>
          match db_path self with
          | None => (Raise (TypeError "rmtree"), self, w)
          | Some d =>
              match rmtree d w with
              | (Raise e, w) => (Raise e, self, w)
              | (Ok _, w) =>
                  (Ok tt, set_process None (set_db_path None self), w)
              end
          end
      | Some false => (Ok tt, set_process None self, w)
      end
  end.

(** The loop of [_wait_till_started].  [fuel] bounds the number of
    iterations; [wait_loop_fuel] shows that the bound chosen in
    [_wait_till_started] is never reached. *)
Fixpoint wait_loop (env : Env) (fuel : nat) (deadline : Z)
    (self : MongoBox) (w : World)
  : option (outcome bool * MongoBox * World) :=
  match fuel with
  | O => None
  | S fuel =>
      if now w <? deadline then
        match process self with
        | None => Some (Raise (AttributeError "poll"), self, w)
        | Some p =>
            let '(r, p, w) := Popen_poll env p w in
            let self := set_process (Some p) self in
            match r with
            | Some _ =>
                Some (Raise (Exception
                               ("mongo server stopped during startup "
                                +:+ "with exit code "
                                +:+ match returncode p with
                                    | Some c => str c
                                    | None => "None"
                                    end)),
                      self, w)
            | None =>
                if port_open env (port self) (now w) then
                  Some (Ok true, self, log (EvConnect (port self) (now w) true) w)
                else
                  wait_loop env fuel deadline self
                    (sleep 250 (log (EvConnect (port self) (now w) false) w))
            end
        end
      else
        (* try: self.stop()  except: pass *)
        let '(_, self, w) := stop env self w in
        Some (Ok false, self, w)
  end.

Definition wait_fuel (delay : Z) : nat := S (Z.to_nat (delay / 250 + 1)).

Definition _wait_till_started (env : Env) (self : MongoBox) (delay : Z)
    (w : World) : outcome bool * MongoBox * World :=
  let deadline := now w + delay in
  match wait_loop env (wait_fuel delay) deadline self w with
  | Some r => r
  | None => (Ok false, self, w)
  end.

Definition restore_cmd (self : MongoBox) (dump : string) : list string :=
  ["mongorestore"; "--port"; str (port self); dump].

Definition spawn_args (self : MongoBox) (dbp : string) : list string :=
  (mongod_bin self :: DEFAULT_ARGS)
  ++ ["--dbpath"; dbp]
  ++ ["--port"; str (port self)]
  ++ ["--logpath"; log_path self]
  ++ (if auth self then ["--auth"] else [])
  ++ (if negb (scripting self) then ["--noscripting"] else [])
  ++ (if negb (prealloc self) then ["--noprealloc"] else []).

(** Lines 60 to 66 of [start()]: the data directory. *)
Definition start_db_path (self : MongoBox) (w : World)
  : outcome string * MongoBox * World :=
  match db_path self with
  | Some p =>
      if truthy_str (db_path self) then
        if negb (path_exists w p) then
          match os_mkdir p w with
          | (Raise e, w) => (Raise e, self, w)
          | (Ok _, w) => (Ok p, set_temporary false self, w)
          end
        else (Ok p, set_temporary false self, w)
      else
        let '(d, w) := mkdtemp w in
        (Ok d, set_temporary true (set_db_path (Some d) self), w)
  | None =>
      let '(d, w) := mkdtemp w in
      (Ok d, set_temporary true (set_db_path (Some d) self), w)
  end.

(** Lines 93 to 103 of [start()]: the seed data. *)
Definition start_restore (env : Env) (self : MongoBox) (w : World)
  : outcome unit * MongoBox * World :=
  match dump_file self with
  | Some dump =>
      if truthy_str (dump_file self) then
        let '(_, w) := NamedTemporaryFile w in
        match check_call env (restore_cmd self dump) w with
        | (Raise e, w) => (Raise e, self, w)
        | (Ok output, w) =>
            let errs := List.filter (fun e => str_in "ERROR" e) output in
            if (0 <? Z.of_nat (List.length errs)) then
              (Raise (Exception ("mongorestore errors:" +:+ join newline errs)),
               self, w)
            else (Ok tt, self, w)
        end
      else (Ok tt, self, w)
  | None => (Ok tt, self, w)
  end.

Definition startup_delay : Z := 15000.

(** [start()] *)
Definition start (env : Env) (self : MongoBox) (w : World)
  : outcome unit * MongoBox * World :=
  match start_db_path self w with
  | (Raise e, self, w) => (Raise e, self, w)
  | (Ok dbp, self, w) =>
      let '(p, w) := Popen_new (spawn_args self dbp) w in
      let self := set_process (Some p) self in
      let delay := startup_delay in
      match _wait_till_started env self delay w with
      | (Raise e, self, w) => (Raise e, self, w)
      | (Ok false, self, w) =>
          (Raise (Exception ("mongo server did not start after "
                             +:+ str_timedelta delay)), self, w)
      | (Ok true, self, w) => start_restore env self w
      end
  end.

(** [__enter__] and [__exit__] *)
Definition __enter__ (env : Env) (self : MongoBox) (w : World)
  : outcome MongoBox * MongoBox * World :=
  match start env self w with
  | (Raise e, self, w) => (Raise e, self, w)
  | (Ok _, self, w) => (Ok self, self, w)
  end.

Definition __exit__ (env : Env) (self : MongoBox) (w : World)
  : outcome unit * MongoBox * World :=
  stop env self w.

(** [with self: body].  The body is the caller's code: it sees the instance,
    takes some time and ends normally or raises.  [__exit__] returns None, so
    an exception of the body is raised again after it; an exception of
    [__exit__] itself takes its place. *)
Definition Body : Type := MongoBox -> Z -> outcome unit * Z.

Definition advance (ms : Z) (w : World) : World :=
  {| now := now w + ms; fs := fs w; events := events w |}.

Definition with_ (env : Env) (body : Body) (self : MongoBox) (w : World)
  : outcome unit * MongoBox * World :=
  match __enter__ env self w with
  | (Raise e, self, w) => (Raise e, self, w)
  | (Ok handle, self, w) =>
      let '(r, ms) := body handle (now w) in
      let w := advance ms w in
      match __exit__ env self w with
      | (Raise e, self, w) => (Raise e, self, w)
      | (Ok _, self, w) => (r, self, w)
      end
  end.

(** ** What the environment does during the startup window

    The loop looks at the child and at the port once every 250 ms, at the
    times [t0], [t0 + 250], ...  These predicates say what it finds there. *)

Definition poll_time (t0 : Z) (j : nat) : Z := t0 + 250 * Z.of_nat j.

(** Nothing happens at the first [k] polls: the child runs and the port
    refuses the connection. *)
Definition quiet (env : Env) (prt t0 : Z) (k : nat) : Prop :=
  forall j : nat, (j < k)%nat ->
    child_poll env (poll_time t0 j) = None
    /\ port_open env prt (poll_time t0 j) = false.

(** The number of polls that fit in the startup delay. *)
Definition max_polls : nat := 60.

(** The first connect that succeeds is the one of poll [k]. *)
Definition ready_at (env : Env) (prt t0 : Z) (k : nat) : Prop :=
  (k < max_polls)%nat
  /\ quiet env prt t0 k
  /\ child_poll env (poll_time t0 k) = None
  /\ port_open env prt (poll_time t0 k) = true.

(** Poll [k] is the first to find the child gone, with status [c]. *)
Definition crashed_at (env : Env) (prt t0 : Z) (k : nat) (c : Z) : Prop :=
  (k < max_polls)%nat
  /\ quiet env prt t0 k
  /\ child_poll env (poll_time t0 k) = Some c.

(** The world after [k] polls at which nothing happened. *)
Fixpoint idle (prt : Z) (k : nat) (w : World) : World :=
  match k with
  | O => w
  | S k =>
      idle prt k
        (sleep 250 (log (EvConnect prt (now w) false)
                      (log (EvPoll (now w) None) w)))
  end.

(** The events logged by [idle]. *)
Fixpoint idle_events (prt t0 : Z) (k : nat) : list event :=
  match k with
  | O => []
  | S k =>
      idle_events prt (t0 + 250) k
      ++ [EvSleep 250; EvConnect prt t0 false; EvPoll t0 None]
  end.

(** ** Intermediate states of [start()] *)

(** The instance and the world once the child has been spawned (line 88). *)
Definition spawned (self : MongoBox) (w : World) : MongoBox * World :=
  match start_db_path self w with
  | (Ok dbp, s, w1) =>
      (set_process (Some {| popen_args := spawn_args s dbp;
                            returncode := None |}) s,
       log (EvSpawn (spawn_args s dbp)) w1)
  | (Raise _, s, w1) => (s, w1)
  end.

(** What [stop()] relies on when a process handle is held: [start()] has set
    the flag and the data directory, and a temporary one is a directory. *)
Definition stoppable (self : MongoBox) (w : World) : Prop :=
  forall p, process self = Some p ->
    exists b d,
      _db_path_is_temporary self = Some b
      /\ db_path self = Some d
      /\ (b = true -> fs w !! d = Some Dir).

(** What [rmtree d] leaves of a filesystem. *)
Definition without (d : string) (m : gmap string node) : gmap string node :=
  filter (fun kv => under d (fst kv) = false) m.

(** The signal that [stop()] sends. *)
Definition stop_signal (env : Env) : signal :=
  if String.eqb (platform env) "darwin" then SIGKILL else SIGTERM.

(** ** The error kinds of the specification

    The code raises [AssertionError] and [Exception] only; the kinds of the
    specification are told apart by the message. *)

Definition ConfigurationError (e : exn) : Prop :=
  exists msg, e = AssertionError msg.

Definition StartupCrashError (code : Z) (e : exn) : Prop :=
  e = Exception ("mongo server stopped during startup with exit code "
                 +:+ str code).

Definition StartupTimeoutError (e : exn) : Prop :=
  e = Exception "mongo server did not start after 0:00:15".

Definition ImportError (e : exn) : Prop :=
  exists errs, e = Exception ("mongorestore errors:" +:+ join newline errs).

(** No signal was sent and no child was waited for. *)
Definition is_stop_event (e : event) : bool :=
  match e with
  | EvSignal _ | EvWait _ | EvRmtree _ => true
  | _ => false
  end.

(** Nothing in a list of events belongs to [stop()]. *)
Definition no_stop (l : list event) : Prop :=
  forallb (fun e => negb (is_stop_event e)) l = true.

(** No connect in a list of events succeeded. *)
Definition is_connected (e : event) : bool :=
  match e with
  | EvConnect _ _ true => true
  | _ => false
  end.

Definition no_connect (l : list event) : Prop :=
  forallb (fun e => negb (is_connected e)) l = true.

(** ** Sample environments and instances *)

Definition world0 : World := {| now := 0; fs := ∅; events := [] |}.

(** A mongod that accepts connections half a second after the spawn. *)
Definition env_up : Env :=
  {| find_executable := fun _ => Some "/usr/bin/mongod";
     get_free_port := 27017;
     platform := "linux";
     child_poll := fun _ => None;
     child_wait := fun _ => -15;
     port_open := fun _ t => 500 <=? t;
     mongorestore := fun _ => (0, []) |}.

(** A binary that exits at once with status 1. *)
Definition env_crash : Env :=
  {| find_executable := fun _ => Some "/usr/bin/mongod";
     get_free_port := 27017;
     platform := "linux";
     child_poll := fun _ => Some 1;
     child_wait := fun _ => 1;
     port_open := fun _ _ => false;
     mongorestore := fun _ => (0, []) |}.

(** A binary that runs but never opens the port. *)
Definition env_down : Env :=
  {| find_executable := fun _ => Some "/usr/bin/mongod";
     get_free_port := 27017;
     platform := "linux";
     child_poll := fun _ => None;
     child_wait := fun _ => -15;
     port_open := fun _ _ => false;
     mongorestore := fun _ => (0, []) |}.

(** A restore that prints an error line and exits with status 1. *)
Definition env_restore_exit1 : Env :=
  {| find_executable := fun _ => Some "/usr/bin/mongod";
     get_free_port := 27017;
     platform := "linux";
     child_poll := fun _ => None;
     child_wait := fun _ => -15;
     port_open := fun _ t => 500 <=? t;
     mongorestore := fun _ => (1, ["ERROR: cannot read dump" +:+ newline]) |}.

(** A restore that prints an error line and exits with status 0. *)
Definition env_restore_error : Env :=
  {| find_executable := fun _ => Some "/usr/bin/mongod";
     get_free_port := 27017;
     platform := "linux";
     child_poll := fun _ => None;
     child_wait := fun _ => -15;
     port_open := fun _ t => 500 <=? t;
     mongorestore :=
       fun _ => (0, ["restoring test.users" +:+ newline;
                     "ERROR: duplicate key" +:+ newline]) |}.

(** [MongoBox()] and [MongoBox(dump_file='/dump')] where mongod is found. *)
Definition box0 : MongoBox :=
  {| mongod_bin := "/usr/bin/mongod"; port := 27017; log_path := devnull;
     scripting := true; prealloc := false; db_path := None; auth := false;
     dump_file := None; process := None; _db_path_is_temporary := None |}.

Definition box_dump : MongoBox :=
  {| mongod_bin := "/usr/bin/mongod"; port := 27017; log_path := devnull;
     scripting := true; prealloc := false; db_path := None; auth := false;
     dump_file := Some "/dump"; process := None;
     _db_path_is_temporary := None |}.

(** [MongoBox(port=70000)] *)
Definition args_port_70000 : InitArgs :=
  {| arg_mongod_bin := None; arg_port := Some 70000; arg_log_path := None;
     arg_db_path := None; arg_scripting := true; arg_prealloc := false;
     arg_auth := false; arg_dump_file := None |}.



(** An instance whose child runs and whose temporary directory is no longer
    on disk. *)
Definition box_lost : MongoBox :=
  {| mongod_bin := "/usr/bin/mongod"; port := 27017; log_path := devnull;
     scripting := true; prealloc := false; db_path := Some "/gone";
     auth := false; dump_file := None;
     process := Some {| popen_args := ["/usr/bin/mongod"];
                        returncode := None |};
     _db_path_is_temporary := Some true |}.

(** A body that raises after a second. *)
Definition body_raises : Body :=
  fun _ _ => (Raise (Exception "boom"), 1000).

(** ** The conditions of the constructor, in the words of the specification *)

(** The server binary cannot be resolved to a path: the caller names none and
    the locator finds none. *)
Definition binary_unresolved (env : Env) (a : InitArgs) : Prop :=
  truthy_str (arg_mongod_bin a) = false
  /\ truthy_str (find_executable env MONGOD_BIN) = false.

(** The data directory that the caller provides exists and is a regular
    file. *)
Definition db_path_is_file (a : InitArgs) (w : World) : Prop :=
  exists p, arg_db_path a = Some p /\ p <> "" /\ fs w !! p = Some File.

(** The configured port is in the range of TCP ports. *)
Definition valid_port (n : Z) : Prop := 1 <= n <= 65535.

(** A port that [connect] takes: on any other it raises OverflowError
    before it tries anything. *)
Definition tcp_port (n : Z) : Prop := 0 <= n <= 65535.

(** ** Notions for the properties of the whole lifecycle *)

(** What the constructor fixes and no method changes. *)
Definition same_config (a b : MongoBox) : Prop :=
  mongod_bin a = mongod_bin b
  /\ port a = port b
  /\ log_path a = log_path b
  /\ scripting a = scripting b
  /\ prealloc a = prealloc b
  /\ auth a = auth b
  /\ dump_file a = dump_file b.

(** The connect attempts and the spawns in a list of events. *)
Definition is_connect (e : event) : bool :=
  match e with
  | EvConnect _ _ _ => true
  | _ => false
  end.

Definition connects (l : list event) : nat :=
  List.length (List.filter is_connect l).

Definition is_spawn (e : event) : bool :=
  match e with
  | EvSpawn _ => true
  | _ => false
  end.

Definition spawns (l : list event) : nat :=
  List.length (List.filter is_spawn l).

(** The number of polls that fit in a delay: one every 250 ms. *)
Definition polls_in (delay : Z) : nat := Z.to_nat ((delay + 249) / 250).

(** The import has nothing to report: no dump is configured, or the restore
    command exits with status 0 and prints no line with ERROR. *)
Definition restore_clean (env : Env) (self : MongoBox) : Prop :=
  truthy_str (dump_file self) = false
  \/ exists dump,
      dump_file self = Some dump /\ dump <> ""
      /\ (mongorestore env (restore_cmd self dump)).1 = 0
      /\ List.filter (fun l => str_in "ERROR" l)
           (mongorestore env (restore_cmd self dump)).2 = [].

(** An instance that was started before and not stopped: it still names the
    temporary directory [/old] of that start. *)
Definition box_restarted : MongoBox :=
  {| mongod_bin := "/usr/bin/mongod"; port := 27017; log_path := devnull;
     scripting := true; prealloc := false; db_path := Some "/old";
     auth := false; dump_file := None;
     process := Some {| popen_args := ["/usr/bin/mongod"];
                        returncode := Some 1 |};
     _db_path_is_temporary := Some true |}.

(** ** Basic facts *)

Lemma set_process_same self p :
  process self = Some p -> set_process (Some p) self = self.
Proof. destruct self; simpl; intros ->; reflexivity. Qed.

Lemma set_returncode_same p r :
  returncode p = r -> set_returncode r p = p.
Proof. destruct p; simpl; intros ->; reflexivity. Qed.

Lemma now_idle prt k : forall w, now (idle prt k w) = now w + 250 * Z.of_nat k.
Proof.
  induction k as [|k IH]; intros w; simpl idle.
  - lia.
  - rewrite IH. simpl. lia.
Qed.

Lemma fs_idle prt k : forall w, fs (idle prt k w) = fs w.
Proof.
  induction k as [|k IH]; intros w; simpl idle; [reflexivity|].
  rewrite IH. reflexivity.
Qed.

Lemma events_idle prt k :
  forall w, events (idle prt k w) = idle_events prt (now w) k ++ events w.
Proof.
  induction k as [|k IH]; intros w; simpl idle; simpl idle_events.
  - reflexivity.
  - rewrite IH. simpl. rewrite <- app_assoc. reflexivity.
Qed.

Lemma idle_events_no_connect prt k :
  forall t0, no_connect (idle_events prt t0 k).
Proof.
  unfold no_connect. induction k as [|k IH]; intros t0; simpl; [reflexivity|].
  rewrite forallb_app, IH. reflexivity.
Qed.

Lemma no_connect_In l prt t : no_connect l -> ~ In (EvConnect prt t true) l.
Proof.
  unfold no_connect. rewrite forallb_forall. intros H Hin.
  specialize (H _ Hin). discriminate.
Qed.

Lemma no_stop_app l1 l2 : no_stop l1 -> no_stop l2 -> no_stop (l1 ++ l2).
Proof. unfold no_stop. intros H1 H2. rewrite forallb_app, H1, H2. reflexivity. Qed.

Lemma no_connect_app l1 l2 :
  no_connect l1 -> no_connect l2 -> no_connect (l1 ++ l2).
Proof.
  unfold no_connect. intros H1 H2. rewrite forallb_app, H1, H2. reflexivity.
Qed.

Lemma idle_events_no_stop prt k :
  forall t0, no_stop (idle_events prt t0 k).
Proof.
  unfold no_stop. induction k as [|k IH]; intros t0; simpl; [reflexivity|].
  rewrite forallb_app, IH. reflexivity.
Qed.

Create HintDb events.
#[local] Hint Resolve no_stop_app no_connect_app
  idle_events_no_stop idle_events_no_connect : events.

(** One iteration of the loop at which nothing happens. *)
Lemma wait_loop_step env fuel deadline self w p :
  process self = Some p ->
  returncode p = None ->
  now w < deadline ->
  child_poll env (now w) = None ->
  port_open env (port self) (now w) = false ->
  wait_loop env (S fuel) deadline self w
  = wait_loop env fuel deadline self (idle (port self) 1 w).
Proof.
  intros Hp Hr Hlt Hpoll Hport. simpl wait_loop.
  apply Z.ltb_lt in Hlt. rewrite Hlt, Hp.
  unfold Popen_poll. rewrite Hr, Hpoll.
  rewrite (set_returncode_same p None Hr), (set_process_same self p Hp).
  simpl. rewrite Hport. reflexivity.
Qed.

(** [k] iterations at which nothing happens. *)
Lemma wait_loop_quiet env deadline self p k :
  process self = Some p ->
  returncode p = None ->
  forall fuel w,
    quiet env (port self) (now w) k ->
    now w + 250 * Z.of_nat k < deadline + 250 ->
    wait_loop env (k + fuel) deadline self w
    = wait_loop env fuel deadline self (idle (port self) k w).
Proof.
  intros Hp Hr. induction k as [|k IH]; intros fuel w Hq Hlt.
  - reflexivity.
  - destruct (Hq 0%nat) as [Hpoll Hport]; [lia|].
    unfold poll_time in Hpoll, Hport. rewrite Z.mul_0_r, Z.add_0_r in Hpoll, Hport.
    change (S k + fuel)%nat with (S (k + fuel)).
    rewrite (wait_loop_step env _ deadline self w p) by (auto; lia).
    rewrite IH.
    + reflexivity.
    + intros j Hj. destruct (Hq (S j)) as [H1 H2]; [lia|].
      unfold poll_time in *. simpl now.
      replace (now w + 250 + 250 * Z.of_nat j)
        with (now w + 250 * Z.of_nat (S j)) by lia.
      auto.
    + simpl now. lia.
Qed.

(** The fuel of [_wait_till_started] is never used up: every iteration that
    does not return sleeps 250 ms, and the deadline is [delay] ms away. *)
Lemma wait_loop_fuel env deadline :
  forall fuel self w,
    deadline - now w <= 250 * Z.of_nat fuel ->
    is_Some (wait_loop env (S fuel) deadline self w).
Proof.
  induction fuel as [|fuel IH]; intros self w Hle.
  - simpl wait_loop. destruct (Z.ltb_spec (now w) deadline) as [Hlt|Hge]; [lia|].
    destruct (stop env self w) as [[o s] w']. eauto.
  - remember (S fuel) as n eqn:Hn. simpl wait_loop.
    destruct (now w <? deadline) eqn:Hlt.
    + destruct (process self) as [p|]; [|eauto].
      destruct (Popen_poll env p w) as [[r p'] w'] eqn:Hpoll.
      assert (now w' = now w) as Hnow.
      { unfold Popen_poll in Hpoll. destruct (returncode p); simplify_eq; reflexivity. }
      destruct r as [c|]; [eauto|].
      destruct (port_open env _ _); [eauto|].
      subst n. apply IH. simpl now. lia.
    + destruct (stop env self w) as [[o s] w']. eauto.
Qed.

Lemma wait_till_started_some env self delay w :
  exists r, wait_loop env (wait_fuel delay) (now w + delay) self w = Some r
            /\ _wait_till_started env self delay w = r.
Proof.
  unfold _wait_till_started.
  destruct (wait_loop_fuel env (now w + delay) (Z.to_nat (delay / 250 + 1)) self w)
    as [r Hr].
  - assert (delay < 250 * (delay / 250 + 1)).
    { pose proof (Z.mul_succ_div_gt delay 250). lia. }
    destruct (Z.le_gt_cases 0 (delay / 250 + 1)); lia.
  - exists r. unfold wait_fuel. rewrite Hr. auto.
Qed.

(** More fuel does not change what the loop returns. *)
Lemma wait_loop_more_fuel env deadline :
  forall fuel extra self w r,
    wait_loop env fuel deadline self w = Some r ->
    wait_loop env (fuel + extra) deadline self w = Some r.
Proof.
  induction fuel as [|fuel IH]; intros extra self w r; [discriminate|].
  change (S fuel + extra)%nat with (S (fuel + extra)). simpl wait_loop.
  destruct (now w <? deadline); [|auto].
  destruct (process self) as [p|]; [|auto].
  destruct (Popen_poll env p w) as [[[c|] p'] w1]; [auto|].
  destruct (port_open env _ _); [auto|]. apply IH.
Qed.

(** X2.  [_wait_till_started] always returns, and what it returns is what
    the loop returns with any larger bound on its iterations: the bound the
    model gives it, one iteration every 250 ms of the delay and two more, is
    never reached. *)
Theorem wait_till_started_total env self delay w extra :
  wait_loop env (wait_fuel delay + extra) (now w + delay) self w
  = Some (_wait_till_started env self delay w).
Proof.
  destruct (wait_till_started_some env self delay w) as (r & Hloop & ->).
  apply wait_loop_more_fuel. exact Hloop.
Qed.

(** The three ways the loop ends within the startup delay. *)
Lemma wait_fuel_startup : wait_fuel startup_delay = (max_polls + 2)%nat.
Proof. reflexivity. Qed.

Lemma wait_till_started_timeout env self w p :
  process self = Some p ->
  returncode p = None ->
  quiet env (port self) (now w) max_polls ->
  _wait_till_started env self startup_delay w
  = (Ok false, (stop env self (idle (port self) max_polls w)).1.2,
     (stop env self (idle (port self) max_polls w)).2).
Proof.
  intros Hp Hr Hq. unfold _wait_till_started.
  rewrite wait_fuel_startup.
  rewrite (wait_loop_quiet env _ self p max_polls Hp Hr) by
    (auto; unfold startup_delay, max_polls; lia).
  pose proof (now_idle (port self) max_polls w) as Hnow.
  remember (idle (port self) max_polls w) as w1 eqn:Hw1.
  simpl wait_loop.
  destruct (Z.ltb_spec (now w1) (now w + startup_delay)) as [Hlt|Hge].
  - unfold startup_delay, max_polls in *. lia.
  - destruct (stop env self w1) as [[o s] w']. reflexivity.
Qed.

Lemma wait_till_started_ready env self w p k :
  process self = Some p ->
  returncode p = None ->
  ready_at env (port self) (now w) k ->
  _wait_till_started env self startup_delay w
  = (Ok true, self,
     log (EvConnect (port self) (poll_time (now w) k) true)
       (log (EvPoll (poll_time (now w) k) None) (idle (port self) k w))).
Proof.
  intros Hp Hr (Hk & Hq & Hpoll & Hport). unfold _wait_till_started.
  rewrite wait_fuel_startup.
  replace (max_polls + 2)%nat with (k + S (max_polls + 1 - k))%nat by lia.
  rewrite (wait_loop_quiet env _ self p k Hp Hr) by
    (auto; unfold startup_delay, max_polls in *; lia).
  pose proof (now_idle (port self) k w) as Hnow.
  remember (idle (port self) k w) as w1 eqn:Hw1.
  unfold poll_time in *. rewrite <- Hnow in *.
  simpl wait_loop.
  destruct (Z.ltb_spec (now w1) (now w + startup_delay)) as [Hlt|Hge].
  - rewrite Hp. unfold Popen_poll. rewrite Hr, Hpoll.
    rewrite (set_returncode_same p None Hr), (set_process_same self p Hp).
    simpl. rewrite Hport. reflexivity.
  - unfold startup_delay, max_polls in *. lia.
Qed.

Lemma wait_till_started_crash env self w p k c :
  process self = Some p ->
  returncode p = None ->
  crashed_at env (port self) (now w) k c ->
  _wait_till_started env self startup_delay w
  = (Raise (Exception ("mongo server stopped during startup with exit code "
                       +:+ str c)),
     set_process (Some (set_returncode (Some c) p)) self,
     log (EvPoll (poll_time (now w) k) (Some c)) (idle (port self) k w)).
Proof.
  intros Hp Hr (Hk & Hq & Hpoll). unfold _wait_till_started.
  rewrite wait_fuel_startup.
  replace (max_polls + 2)%nat with (k + S (max_polls + 1 - k))%nat by lia.
  rewrite (wait_loop_quiet env _ self p k Hp Hr) by
    (auto; unfold startup_delay, max_polls in *; lia).
  pose proof (now_idle (port self) k w) as Hnow.
  remember (idle (port self) k w) as w1 eqn:Hw1.
  unfold poll_time in *. rewrite <- Hnow in *.
  simpl wait_loop.
  destruct (Z.ltb_spec (now w1) (now w + startup_delay)) as [Hlt|Hge].
  - rewrite Hp. unfold Popen_poll. rewrite Hr, Hpoll. reflexivity.
  - unfold startup_delay, max_polls in *. lia.
Qed.

(** ** [stop()] *)

Lemma under_refl d : under d d = true.
Proof. unfold under. rewrite String.eqb_refl. reflexivity. Qed.

Lemma lookup_without d m q :
  without d m !! q = if under d q then None else m !! q.
Proof.
  unfold without. destruct (under d q) eqn:Hu.
  - apply map_lookup_filter_None. right. intros x _. simpl. congruence.
  - destruct (m !! q) as [x|] eqn:Hq.
    + apply map_lookup_filter_Some. auto.
    + apply map_lookup_filter_None. auto.
Qed.

Lemma stop_idle env self w :
  process self = None -> stop env self w = (Ok tt, self, w).
Proof. unfold stop. intros ->. reflexivity. Qed.

(** [stop()] on an instance that holds a handle and has what it needs:
    it returns and clears the handle, whatever the child does. *)
Lemma stop_any env self w p b d :
  process self = Some p ->
  _db_path_is_temporary self = Some b ->
  db_path self = Some d ->
  (b = true -> fs w !! d = Some Dir) ->
  exists self' w' post,
    stop env self w = (Ok tt, self', w')
    /\ process self' = None
    /\ db_path self' = (if b then None else Some d)
    /\ port self' = port self
    /\ now w' = now w
    /\ fs w' = (if b then without d (fs w) else fs w)
    /\ events w' = post ++ events w
    /\ connects post = 0%nat /\ spawns post = 0%nat.
Proof.
  intros Hp Hb Hd Hdir. unfold stop. rewrite Hp.
  unfold Popen_send_signal, Popen_poll, Popen_wait.
  destruct (returncode p) as [c|] eqn:Hr;
    [|destruct (child_poll env (now w)) as [c|]];
    destruct (String.eqb (platform env) "darwin"); simpl; rewrite ?Hr; simpl;
    rewrite Hb; destruct b; simpl; rewrite ?Hd;
    try (unfold rmtree; simpl; rewrite (Hdir eq_refl); simpl);
    first
      [ solve [eexists _, _, []; (split; [reflexivity|]);
               repeat split; simpl; rewrite ?Hd; reflexivity]
      | solve [eexists _, _, [_]; (split; [reflexivity|]);
               repeat split; simpl; rewrite ?Hd; reflexivity]
      | solve [eexists _, _, [_; _]; (split; [reflexivity|]);
               repeat split; simpl; rewrite ?Hd; reflexivity]
      | solve [eexists _, _, [_; _; _]; (split; [reflexivity|]);
               repeat split; simpl; rewrite ?Hd; reflexivity]
      | solve [eexists _, _, [_; _; _; _]; (split; [reflexivity|]);
               repeat split; simpl; rewrite ?Hd; reflexivity] ].
Qed.

Lemma stop_held env self w p b d :
  process self = Some p ->
  _db_path_is_temporary self = Some b ->
  db_path self = Some d ->
  (b = true -> fs w !! d = Some Dir) ->
  exists self' w',
    stop env self w = (Ok tt, self', w')
    /\ process self' = None
    /\ db_path self' = (if b then None else Some d)
    /\ fs w' = (if b then without d (fs w) else fs w).
Proof.
  intros Hp Hb Hd Hdir.
  destruct (stop_any env self w p b d Hp Hb Hd Hdir)
    as (s' & w' & post & H & H0 & H1 & _ & _ & H2 & _).
  eauto 10.
Qed.

(** The same on a child that is running when [stop()] is called: it is
    signalled and waited for. *)
Lemma stop_running env self w p b d :
  process self = Some p ->
  returncode p = None ->
  child_poll env (now w) = None ->
  _db_path_is_temporary self = Some b ->
  db_path self = Some d ->
  (b = true -> fs w !! d = Some Dir) ->
  exists self' w',
    stop env self w = (Ok tt, self', w')
    /\ process self' = None
    /\ db_path self' = (if b then None else Some d)
    /\ port self' = port self
    /\ now w' = now w
    /\ fs w' = (if b then without d (fs w) else fs w)
    /\ events w'
       = (if b then [EvRmtree d] else [])
         ++ EvWait (child_wait env (now w)) :: EvSignal (stop_signal env)
         :: EvPoll (now w) None :: events w.
Proof.
  intros Hp Hr Hrun Hb Hd Hdir. unfold stop. rewrite Hp.
  unfold Popen_send_signal, Popen_poll, Popen_wait, stop_signal.
  rewrite Hr, Hrun.
  destruct (String.eqb (platform env) "darwin"); simpl;
    rewrite Hb; destruct b; simpl; rewrite ?Hd;
    try (unfold rmtree; simpl; rewrite (Hdir eq_refl); simpl);
    eexists _, _; repeat split; simpl; rewrite ?Hd; reflexivity.
Qed.

(** Whenever [stop()] returns, no handle is held. *)
Lemma stop_ok_idle env self w self' w' :
  stop env self w = (Ok tt, self', w') -> process self' = None.
Proof.
  unfold stop. destruct (process self) as [p|] eqn:Hp.
  - destruct (if String.eqb (platform env) "darwin" then _ else _) as [p0 w0].
    destruct (Popen_wait env p0 w0) as [p' w1].
    destruct (_db_path_is_temporary _) as [[|]|]; try congruence.
    + destruct (db_path _) as [d|]; [|congruence].
      destruct (rmtree d w1) as [[[]|e] w2]; intros; simplify_eq; reflexivity.
    + intros; simplify_eq; reflexivity.
  - intros; simplify_eq; assumption.
Qed.

(** On an instance that [start()] has set up, [stop()] returns. *)
Lemma stop_stoppable env self w :
  stoppable self w ->
  exists self' w',
    stop env self w = (Ok tt, self', w') /\ process self' = None.
Proof.
  intros Hs. destruct (process self) as [p|] eqn:Hp.
  - destruct (Hs p Hp) as (b & d & Hb & Hd & Hdir).
    destruct (stop_any env self w p b d) as (s' & w' & post & H & H' & _);
      eauto.
  - exists self, w. split; [apply stop_idle|]; assumption.
Qed.

(** ** The data directory and the spawn *)

Lemma tmp_name_fresh w : fs w !! tmp_name w = None.
Proof. apply fresh_string_fresh. Qed.

Lemma start_db_path_temporary self w :
  truthy_str (db_path self) = false ->
  start_db_path self w
  = (Ok (tmp_name w),
     set_temporary true (set_db_path (Some (tmp_name w)) self),
     log (EvMkdtemp (tmp_name w))
       (set_fs (<[tmp_name w := Dir]> (fs w)) w)).
Proof.
  unfold start_db_path. destruct (db_path self) as [p|]; [|reflexivity].
  intros ->. reflexivity.
Qed.

Lemma start_db_path_explicit self w p :
  db_path self = Some p -> p <> "" ->
  start_db_path self w
  = (Ok p, set_temporary false self,
     if path_exists w p then w
     else log (EvMkdir p) (set_fs (<[p := Dir]> (fs w)) w)).
Proof.
  intros Hp Hne. unfold start_db_path. rewrite Hp. simpl.
  destruct (String.eqb_spec p ""); [contradiction|]. simpl.
  unfold path_exists, os_mkdir. destruct (fs w !! p); reflexivity.
Qed.

Lemma truthy_str_false o :
  truthy_str o = false -> o = None \/ o = Some "".
Proof.
  destruct o as [x|]; simpl; [|auto].
  destruct (String.eqb_spec x ""); [subst; auto|discriminate].
Qed.

Lemma truthy_str_true o :
  truthy_str o = true -> exists x, o = Some x /\ x <> "".
Proof.
  destruct o as [x|]; simpl; [|discriminate].
  destruct (String.eqb_spec x ""); [discriminate|eauto].
Qed.

(** [start()] in terms of the state after the spawn. *)
Lemma start_spawned env self w :
  start env self w
  = match _wait_till_started env (spawned self w).1 startup_delay
            (spawned self w).2 with
    | (Raise e, s, w') => (Raise e, s, w')
    | (Ok false, s, w') =>
        (Raise (Exception "mongo server did not start after 0:00:15"), s, w')
    | (Ok true, s, w') => start_restore env s w'
    end.
Proof.
  unfold start, spawned.
  destruct (truthy_str (db_path self)) eqn:Ht.
  - destruct (truthy_str_true _ Ht) as (p & Hp & Hne).
    rewrite (start_db_path_explicit self w p Hp Hne). reflexivity.
  - rewrite (start_db_path_temporary self w Ht). reflexivity.
Qed.

Lemma spawned_spec self w :
  exists p b d pre,
    process (spawned self w).1 = Some p
    /\ returncode p = None
    /\ port (spawned self w).1 = port self
    /\ dump_file (spawned self w).1 = dump_file self
    /\ now (spawned self w).2 = now w
    /\ _db_path_is_temporary (spawned self w).1 = Some b
    /\ db_path (spawned self w).1 = Some d
    /\ b = negb (truthy_str (db_path self))
    /\ events (spawned self w).2 = pre ++ events w
    /\ no_stop pre
    /\ no_connect pre
    /\ (b = true ->
        d = tmp_name w
        /\ fs (spawned self w).2 = <[d := Dir]> (fs w)
        /\ In (EvMkdtemp d) pre)
    /\ (b = false ->
        db_path self = Some d /\ d <> ""
        /\ fs (spawned self w).2
           = if path_exists w d then fs w else <[d := Dir]> (fs w)).
Proof.
  unfold spawned. destruct (truthy_str (db_path self)) eqn:Ht.
  - destruct (truthy_str_true _ Ht) as (p & Hp & Hne).
    rewrite (start_db_path_explicit self w p Hp Hne).
    eexists _, false, p,
      (EvSpawn _ :: if path_exists w p then [] else [EvMkdir p]).
    simpl. rewrite Hp.
    repeat split; try reflexivity; try discriminate; try assumption;
      destruct (path_exists w p); reflexivity.
  - rewrite (start_db_path_temporary self w Ht).
    eexists _, true, (tmp_name w), [EvSpawn _; EvMkdtemp (tmp_name w)].
    simpl. repeat split; try reflexivity; try discriminate.
    right; left; reflexivity.
Qed.

(** After the spawn the instance is one that [stop()] can handle. *)
Lemma lookup_spawned_dir self w d :
  db_path (spawned self w).1 = Some d ->
  _db_path_is_temporary (spawned self w).1 = Some true ->
  fs (spawned self w).2 !! d = Some Dir.
Proof.
  intros Hd Hb.
  destruct (spawned_spec self w)
    as (p & b & d' & pre & _ & _ & _ & _ & _ & Hb' & Hd' & _ & _ & _ & _ & Ht & _).
  rewrite Hb in Hb'. rewrite Hd in Hd'. simplify_eq.
  destruct (Ht eq_refl) as (_ & -> & _). apply lookup_insert_eq.
Qed.

(** ** The seed data *)

Lemma start_restore_none env self w :
  truthy_str (dump_file self) = false ->
  start_restore env self w = (Ok tt, self, w).
Proof.
  unfold start_restore. destruct (dump_file self); [|reflexivity].
  intros ->. reflexivity.
Qed.

Lemma start_restore_some env self w dump :
  dump_file self = Some dump -> dump <> "" ->
  start_restore env self w
  = let cmd := restore_cmd self dump in
    let w1 := log (EvRestore cmd (mongorestore env cmd).1)
                (NamedTemporaryFile w).2 in
    if (mongorestore env cmd).1 =? 0 then
      let errs := List.filter (fun e => str_in "ERROR" e)
                    (mongorestore env cmd).2 in
      match errs with
      | [] => (Ok tt, self, w1)
      | _ :: _ =>
          (Raise (Exception ("mongorestore errors:" +:+ join newline errs)),
           self, w1)
      end
    else (Raise (CalledProcessError (mongorestore env cmd).1 cmd), self, w1).
Proof.
  intros Hd Hne. unfold start_restore, check_call. rewrite Hd. simpl truthy_str.
  destruct (String.eqb_spec dump ""); [contradiction|]. simpl negb. cbv iota.
  destruct (mongorestore env (restore_cmd self dump)) as [status out].
  simpl. destruct (status =? 0); [|reflexivity].
  destruct (List.filter _ out); reflexivity.
Qed.

(** Whatever the outcome, the import leaves the instance alone, stops
    nothing and keeps every path that exists. *)
Lemma start_restore_spec env self w :
  exists o w' pre,
    start_restore env self w = (o, self, w')
    /\ now w' = now w
    /\ events w' = pre ++ events w
    /\ no_stop pre
    /\ (forall q x, fs w !! q = Some x -> fs w' !! q = Some x).
Proof.
  destruct (truthy_str (dump_file self)) eqn:Ht.
  - destruct (truthy_str_true _ Ht) as (dump & Hd & Hne).
    rewrite (start_restore_some env self w dump Hd Hne). cbv zeta.
    set (cmd := restore_cmd self dump).
    assert (forall q x, fs w !! q = Some x ->
                        fs (NamedTemporaryFile w).2 !! q = Some x) as Hfs.
    { intros q x Hq. simpl. rewrite lookup_insert_ne; [assumption|].
      intros <-. rewrite tmp_name_fresh in Hq. discriminate. }
    destruct (_ =? 0); [destruct (List.filter _ _)|];
      eexists _, _, [EvRestore _ _; EvTempfile _];
      (split; [reflexivity|]); repeat split; auto.
  - rewrite (start_restore_none env self w Ht).
    exists (Ok tt), w, []. repeat split; auto.
Qed.

(** ** The three outcomes of the startup window *)

Lemma quiet_spawned env self w k :
  quiet env (port self) (now w) k ->
  quiet env (port (spawned self w).1) (now (spawned self w).2) k.
Proof.
  destruct (spawned_spec self w)
    as (p & b & d & pre & _ & _ & -> & _ & -> & _). auto.
Qed.

Lemma start_quiet env self w :
  quiet env (port self) (now w) max_polls ->
  start env self w
  = (Raise (Exception "mongo server did not start after 0:00:15"),
     (stop env (spawned self w).1
        (idle (port self) max_polls (spawned self w).2)).1.2,
     (stop env (spawned self w).1
        (idle (port self) max_polls (spawned self w).2)).2).
Proof.
  intros Hq. rewrite start_spawned.
  destruct (spawned_spec self w)
    as (p & b & d & pre & Hp & Hr & Hport & _ & Hnow & _).
  rewrite (wait_till_started_timeout env _ _ p Hp Hr)
    by (apply quiet_spawned; assumption).
  rewrite Hport. reflexivity.
Qed.

Lemma start_ready env self w k :
  ready_at env (port self) (now w) k ->
  start env self w
  = start_restore env (spawned self w).1
      (log (EvConnect (port self) (poll_time (now w) k) true)
         (log (EvPoll (poll_time (now w) k) None)
            (idle (port self) k (spawned self w).2))).
Proof.
  intros Hq. rewrite start_spawned.
  destruct (spawned_spec self w)
    as (p & b & d & pre & Hp & Hr & Hport & _ & Hnow & _).
  rewrite (wait_till_started_ready env _ _ p k Hp Hr)
    by (rewrite Hport, Hnow; assumption).
  rewrite Hport, Hnow. reflexivity.
Qed.

Lemma start_crashed env self w k c :
  crashed_at env (port self) (now w) k c ->
  exists p,
    process (spawned self w).1 = Some p
    /\ start env self w
       = (Raise (Exception
                   ("mongo server stopped during startup with exit code "
                    +:+ str c)),
          set_process (Some (set_returncode (Some c) p)) (spawned self w).1,
          log (EvPoll (poll_time (now w) k) (Some c))
            (idle (port self) k (spawned self w).2)).
Proof.
  intros Hq. rewrite start_spawned.
  destruct (spawned_spec self w)
    as (p & b & d & pre & Hp & Hr & Hport & _ & Hnow & _).
  exists p. split; [assumption|].
  rewrite (wait_till_started_crash env _ _ p k c Hp Hr)
    by (rewrite Hport, Hnow; assumption).
  rewrite Hport, Hnow. reflexivity.
Qed.

(** One of the three happens. *)
Lemma window_cases env prt t0 :
  forall n,
    quiet env prt t0 n
    \/ (exists k, (k < n)%nat /\ quiet env prt t0 k
                  /\ child_poll env (poll_time t0 k) = None
                  /\ port_open env prt (poll_time t0 k) = true)
    \/ (exists k c, (k < n)%nat /\ quiet env prt t0 k
                    /\ child_poll env (poll_time t0 k) = Some c).
Proof.
  induction n as [|n IH].
  - left. intros j Hj. lia.
  - destruct IH as [Hq|[(k & Hk & H)|(k & c & Hk & H)]].
    + destruct (child_poll env (poll_time t0 n)) as [c|] eqn:Hpoll.
      { right; right. exists n, c. auto. }
      destruct (port_open env prt (poll_time t0 n)) eqn:Hport.
      { right; left. exists n. auto. }
      left. intros j Hj. destruct (decide (j = n)) as [->|Hne]; [auto|].
      apply Hq. lia.
    + right; left. exists k. split; [lia|assumption].
    + right; right. exists k, c. split; [lia|assumption].
Qed.

Lemma startup_cases env prt t0 :
  quiet env prt t0 max_polls
  \/ (exists k, ready_at env prt t0 k)
  \/ (exists k c, crashed_at env prt t0 k c).
Proof.
  destruct (window_cases env prt t0 max_polls)
    as [Hq|[(k & Hk & H)|(k & c & Hk & H)]].
  - auto.
  - right; left. exists k. split; assumption.
  - right; right. exists k, c. split; assumption.
Qed.

(** ** A child that exits during the startup window *)

(** X1.  When a poll finds the child gone (the first poll, or a later
    one on a port that [connect] takes), [start()] raises the exception that
    carries the exit status, and that poll is the last thing it did: no
    connect follows, but no [stop()] either, so the handle stays. *)
Lemma start_crash env self w k c :
  ((0 < k)%nat -> tcp_port (port self)) ->
  crashed_at env (port self) (now w) k c ->
  exists e self' w' pre,
    start env self w = (Raise e, self', w')
    /\ StartupCrashError c e
    /\ events w' = EvPoll (poll_time (now w) k) (Some c) :: pre ++ events w
    /\ no_stop pre
    /\ no_connect pre
    /\ running self' = true.
Proof.
  intros _ Hc. destruct (start_crashed env self w k c Hc) as (p & Hp & ->).
  destruct (spawned_spec self w)
    as (p' & b & d & pre & _ & _ & _ & _ & Hnow & _ & _ & _ & Hev & Hns & Hnc & _).
  eexists _, _, _, (idle_events (port self) (now w) k ++ pre).
  split; [reflexivity|]. split; [reflexivity|].
  split.
  { simpl. rewrite events_idle, Hev, Hnow, app_assoc. reflexivity. }
  split; [auto with events|].
  split; [auto with events|].
  reflexivity.
Qed.

Lemma start_crash_witness :
  (((0 < 0)%nat -> tcp_port (port box0))
   /\ crashed_at env_crash (port box0) (now world0) 0 1)
  /\ exists e self' w',
      start env_crash box0 world0 = (Raise e, self', w')
      /\ StartupCrashError 1 e
      /\ running self' = true.
Proof.
  assert (crashed_at env_crash (port box0) (now world0) 0 1) as Hc.
  { split; [unfold max_polls; lia|]. split; [|reflexivity].
    intros j Hj. lia. }
  assert ((0 < 0)%nat -> tcp_port (port box0)) as Hk by lia.
  split; [exact (conj Hk Hc)|].
  destruct (start_crash env_crash box0 world0 0 1 Hk Hc)
    as (e & s' & w' & pre & Hs & He & _ & _ & _ & Hr).
  exists e, s', w'. split; [exact Hs|]. split; [exact He|exact Hr].
Defined.

(** C1, at a binary that exits at once with status 1: [start()] raises
    the exception with that status right after the poll, before any connect,
    but the process handle is still held and the temporary directory is still
    there, so [running()] is true where the claim wants it false. *)
Theorem start_crash_keeps_process :
  exists self' w',
    start env_crash box0 world0
    = (Raise (Exception "mongo server stopped during startup with exit code 1"),
       self', w')
    /\ events w'
       = [EvPoll 0 (Some 1); EvSpawn (spawn_args box0 "/tmp/tmp");
          EvMkdtemp "/tmp/tmp"]
    /\ running self' = true
    /\ fs w' !! "/tmp/tmp" = Some Dir.
Proof. eexists _, _. vm_compute. repeat split; reflexivity. Qed.

(** ** The deadline *)

(** C2.  The port of the instance is one that [connect] takes; the child
    is running and the port refuses the connection at every poll of the
    startup window, and the child is still running when the window ends.
    Then the loop gives up with [stop()] and returns False whatever [stop()]
    did, even raise (first part, for any instance on that port that holds a
    running child); and [start()], where [stop()] has all it needs, sends the
    signal, waits, raises the exception of the timeout when the 15 s have
    passed and leaves no handle (second part). *)
Theorem start_timeout env self w :
  tcp_port (port self) ->
  quiet env (port self) (now w) max_polls ->
  child_poll env (now w + startup_delay) = None ->
  (forall s p,
      process s = Some p -> returncode p = None -> port s = port self ->
      _wait_till_started env s startup_delay w
      = (Ok false,
         (stop env s (idle (port s) max_polls w)).1.2,
         (stop env s (idle (port s) max_polls w)).2))
  /\ exists e self' w' post pre,
      start env self w = (Raise e, self', w')
      /\ StartupTimeoutError e
      /\ running self' = false
      /\ now w' = now w + startup_delay
      /\ events w'
         = post ++ EvWait (child_wait env (now w + startup_delay))
             :: EvSignal (stop_signal env) :: pre ++ events w
      /\ no_stop pre /\ no_connect pre.
Proof.
  intros _ Hq Hrun. split.
  - intros s p Hp Hr Hport. apply (wait_till_started_timeout env s w p Hp Hr).
    rewrite Hport. assumption.
  - rewrite (start_quiet env self w Hq).
    destruct (spawned_spec self w)
      as (p & b & d & pre & Hp & Hr & Hport & _ & Hnow & Hb & Hd & _ & Hev
          & Hns & Hnc & _).
    assert (now (idle (port self) max_polls (spawned self w).2)
            = now w + startup_delay) as Hdl.
    { rewrite now_idle, Hnow. reflexivity. }
    destruct (stop_running env (spawned self w).1
                (idle (port self) max_polls (spawned self w).2) p b d)
      as (s' & w' & Hstop & Hidle & _ & _ & Hnow' & _ & Hev'); auto.
    { rewrite Hdl. exact Hrun. }
    { intros ->. rewrite fs_idle. apply lookup_spawned_dir; assumption. }
    rewrite Hstop. simpl. rewrite Hdl in Hev', Hnow'.
    exists (Exception "mongo server did not start after 0:00:15"), s', w',
      (if b then [EvRmtree d] else []),
      (EvPoll (now w + startup_delay) None
       :: idle_events (port self) (now w) max_polls ++ pre).
    split; [reflexivity|]. split; [reflexivity|].
    split; [unfold running; rewrite Hidle; reflexivity|].
    split; [exact Hnow'|].
    split.
    { rewrite Hev', events_idle, Hev, Hnow. cbn [app].
      rewrite <- app_assoc. reflexivity. }
    split.
    + apply (no_stop_app [_]); [reflexivity|]. auto with events.
    + apply (no_connect_app [_]); [reflexivity|]. auto with events.
Qed.

Lemma start_timeout_witness :
  (tcp_port (port box0)
   /\ quiet env_down (port box0) (now world0) max_polls
   /\ child_poll env_down (now world0 + startup_delay) = None)
  /\ exists e self' w' post pre,
      start env_down box0 world0 = (Raise e, self', w')
      /\ StartupTimeoutError e
      /\ running self' = false
      /\ now w' = now world0 + startup_delay
      /\ events w'
         = post ++ EvWait (child_wait env_down (now world0 + startup_delay))
             :: EvSignal (stop_signal env_down) :: pre ++ events world0
      /\ no_stop pre /\ no_connect pre.
Proof.
  assert (tcp_port (port box0)) as Hport by (unfold tcp_port; simpl; lia).
  assert (quiet env_down (port box0) (now world0) max_polls) as Hq.
  { intros j Hj. split; reflexivity. }
  split; [exact (conj Hport (conj Hq eq_refl))|].
  exact (proj2 (start_timeout env_down box0 world0 Hport Hq eq_refl)).
Defined.

(** What the first part of [start_timeout] allows: on an instance whose
    temporary directory is not on disk, [rmtree] raises in [stop()]; the loop
    swallows it and returns False, and the handle is still held.  [start()]
    itself never hands such an instance to the loop. *)
Lemma wait_till_started_swallows :
  exists self' w',
    (stop env_down box_lost (idle (port box_lost) max_polls world0)).1.1
    = Raise (OSError "/gone")
    /\ _wait_till_started env_down box_lost startup_delay world0
       = (Ok false, self', w')
    /\ running self' = true.
Proof. eexists _, _. vm_compute. repeat split; reflexivity. Qed.

(** ** The state that [start()] leaves

    Either the loop gave up and [stop()] has run: [start()] raised, no handle
    is held and a temporary directory is gone.  Or the handle is held, with
    the flag and the directory as they were at the spawn. *)
Lemma start_post env self w o s1 w1 :
  start env self w = (o, s1, w1) ->
  port s1 = port self
  /\ (exists post, events w1 = post ++ events (spawned self w).2)
  /\ ((process s1 = None
       /\ (exists e, o = Raise e)
       /\ forall b d,
           _db_path_is_temporary (spawned self w).1 = Some b ->
           db_path (spawned self w).1 = Some d ->
           db_path s1 = (if b then None else Some d)
           /\ fs w1 = (if b then without d (fs (spawned self w).2)
                       else fs (spawned self w).2))
      \/ (exists p,
           process s1 = Some p
           /\ _db_path_is_temporary s1
              = _db_path_is_temporary (spawned self w).1
           /\ db_path s1 = db_path (spawned self w).1
           /\ (o = Ok tt \/ exists e, o = Raise e)
           /\ forall q x, fs (spawned self w).2 !! q = Some x ->
                          fs w1 !! q = Some x)).
Proof.
  intros Hstart.
  destruct (spawned_spec self w)
    as (p & b & d & pre & Hp & Hr & Hport & _ & Hnow & Hb & Hd & _ & _).
  destruct (startup_cases env (port self) (now w))
    as [Hq|[(k & Hk)|(k & c & Hk)]].
  - rewrite (start_quiet env self w Hq) in Hstart.
    destruct (stop_any env (spawned self w).1
                (idle (port self) max_polls (spawned self w).2) p b d)
      as (s' & w' & post & Hstop & Hidle & Hd' & Hport' & _ & Hfs & Hev & _);
      auto.
    { intros ->. rewrite fs_idle. apply lookup_spawned_dir; assumption. }
    rewrite Hstop in Hstart. simpl in Hstart. simplify_eq.
    split; [congruence|]. split.
    { rewrite Hev, events_idle.
      exists (post
              ++ idle_events (port self) (now (spawned self w).2) max_polls).
      rewrite <- app_assoc. reflexivity. }
    left. split; [assumption|]. split; [eauto|].
    intros b' d' Hb' Hd''. rewrite Hb in Hb'. rewrite Hd in Hd''. simplify_eq.
    rewrite fs_idle in Hfs. auto.
  - rewrite (start_ready env self w k Hk) in Hstart.
    destruct (start_restore_spec env (spawned self w).1
                (log (EvConnect (port self) (poll_time (now w) k) true)
                   (log (EvPoll (poll_time (now w) k) None)
                      (idle (port self) k (spawned self w).2))))
      as (o' & w' & post & Hres & _ & Hev & _ & Hfs).
    rewrite Hres in Hstart. simplify_eq.
    split; [assumption|]. split.
    { rewrite Hev. simpl. rewrite events_idle. eexists (post ++ _ :: _ :: _).
      rewrite <- app_assoc. simpl. reflexivity. }
    right. exists p. repeat split; auto.
    + destruct o as [[]|e]; eauto.
    + intros q x Hq. apply Hfs. simpl. rewrite fs_idle. assumption.
  - destruct (start_crashed env self w k c Hk) as (p' & Hp' & Heq).
    rewrite Heq in Hstart. simplify_eq.
    split; [assumption|]. split.
    { simpl. rewrite events_idle. eexists (_ :: _). simpl. reflexivity. }
    right. eexists. repeat split; eauto.
    simpl. rewrite fs_idle. auto.
Qed.

(** After [start()], whatever its outcome, [stop()] has what it needs. *)
Lemma start_stoppable env self w o s1 w1 :
  start env self w = (o, s1, w1) -> stoppable s1 w1.
Proof.
  intros Hstart p Hp.
  destruct (start_post env self w o s1 w1 Hstart)
    as (_ & _ & [(Hnone & _)|(p' & _ & Hb & Hd & _ & Hfs)]); [congruence|].
  destruct (spawned_spec self w)
    as (_ & b & d & _ & _ & _ & _ & _ & _ & Hb' & Hd' & _).
  exists b, d. rewrite Hb, Hd. repeat split; auto.
  intros ->. apply Hfs. apply lookup_spawned_dir; assumption.
Qed.

(** ** The constructor *)

Lemma init_ok env a w self :
  __init__ env a w = Ok self ->
  db_path self = arg_db_path a
  /\ process self = None
  /\ port self = or_int (arg_port a) (get_free_port env)
  /\ dump_file self = arg_dump_file a
  /\ forall p, arg_db_path a = Some p -> p <> "" -> fs w !! p <> Some File.
Proof.
  unfold __init__.
  destruct (or_str _ _) as [bin|]; [|discriminate].
  destruct (String.eqb bin ""); [discriminate|].
  destruct (truthy_str (arg_db_path a) && _) eqn:Hchk; [discriminate|].
  intros [= <-]. simpl. repeat split.
  intros p Hp Hne Hfile. rewrite Hp in Hchk. simpl in Hchk.
  destruct (String.eqb_spec p ""); [contradiction|].
  unfold path_exists, path_isfile in Hchk. rewrite Hfile in Hchk.
  discriminate.
Qed.

(** ** The data directory after [start()] and [stop()] *)



(** ** The readiness barrier *)

(** C4.  When [start()] returns without an exception, one poll of the
    startup window found the child running and the port of the instance
    accepting a connection; that connect is in the log of this call, nothing
    was stopped, and a handle is held: [running()] is true. *)
Theorem start_returns_connected env self w self' w' :
  start env self w = (Ok tt, self', w') ->
  running self' = true
  /\ port self' = port self
  /\ exists k post pre,
      ready_at env (port self) (now w) k
      /\ events w'
         = post ++ EvConnect (port self) (poll_time (now w) k) true
             :: pre ++ events w
      /\ no_stop post /\ no_stop pre /\ no_connect pre.
Proof.
  intros Hstart.
  destruct (spawned_spec self w)
    as (p & b & d & pre & Hp & _ & Hport & _ & Hnow & _ & _ & _ & Hev
        & Hns & Hnc & _).
  destruct (startup_cases env (port self) (now w))
    as [Hq|[(k & Hk)|(k & c & Hk)]].
  - rewrite (start_quiet env self w Hq) in Hstart. discriminate.
  - rewrite (start_ready env self w k Hk) in Hstart.
    destruct (start_restore_spec env (spawned self w).1
                (log (EvConnect (port self) (poll_time (now w) k) true)
                   (log (EvPoll (poll_time (now w) k) None)
                      (idle (port self) k (spawned self w).2))))
      as (o' & w1 & post & Hres & _ & Hev1 & Hns1 & _).
    rewrite Hres in Hstart. injection Hstart as -> <- <-.
    split; [unfold running; rewrite Hp; reflexivity|].
    split; [assumption|].
    exists k, post,
      (EvPoll (poll_time (now w) k) None
       :: idle_events (port self) (now w) k ++ pre).
    split; [assumption|]. split.
    { rewrite Hev1. simpl. rewrite events_idle, Hev, Hnow, <- app_assoc.
      reflexivity. }
    split; [assumption|]. split.
    + apply (no_stop_app [_]); [reflexivity|].
      auto with events.
    + apply (no_connect_app [_]); [reflexivity|].
      auto with events.
  - destruct (start_crashed env self w k c Hk) as (p' & _ & Heq).
    rewrite Heq in Hstart. discriminate.
Qed.

Lemma start_returns_connected_witness :
  let r := start env_up box0 world0 in
  start env_up box0 world0 = (Ok tt, r.1.2, r.2)
  /\ running r.1.2 = true
  /\ port r.1.2 = port box0.
Proof.
  intros r.
  assert (start env_up box0 world0 = (Ok tt, r.1.2, r.2)) as H
    by (vm_compute; reflexivity).
  split; [exact H|].
  destruct (start_returns_connected env_up box0 world0 r.1.2 r.2 H)
    as (Hrun & Hport & _).
  split; [exact Hrun|exact Hport].
Defined.

(** ** The seed data: error lines and failed restore *)

Lemma prefix_spec n : forall h,
  String.prefix n h = true <-> exists post, h = n +:+ post.
Proof.
  induction n as [|a n IH]; intros h.
  - split; [intros _; exists h; reflexivity|].
    intros _. destruct h; reflexivity.
  - destruct h as [|b h]; simpl.
    + split; [discriminate|]. intros (post & Hp). discriminate.
    + destruct (Ascii.ascii_dec a b) as [->|Hne].
      * rewrite IH. split; intros (post & H); exists post.
        -- rewrite H. reflexivity.
        -- injection H as ->. reflexivity.
      * split; [discriminate|]. intros (post & Hp).
        injection Hp as -> _. contradiction.
Qed.

Lemma str_in_nil n : str_in n "" = String.prefix n "".
Proof. simpl. apply orb_false_r. Qed.

Lemma str_in_cons n b h :
  str_in n (String b h) = String.prefix n (String b h) || str_in n h.
Proof. reflexivity. Qed.

(** [str_in] is the substring test. *)
Lemma str_in_spec n : forall h,
  str_in n h = true <-> exists pre post, h = pre +:+ n +:+ post.
Proof.
  induction h as [|b h IH].
  - rewrite str_in_nil, prefix_spec. split.
    + intros (post & ->). exists "", post. reflexivity.
    + intros (pre & post & Hp). destruct pre; [exists post; exact Hp|discriminate].
  - rewrite str_in_cons, orb_true_iff, prefix_spec, IH. split.
    + intros [(post & ->)|(pre & post & ->)].
      * exists "", post. reflexivity.
      * exists (String b pre), post. reflexivity.
    + intros (pre & post & Hp). destruct pre as [|c pre].
      * left. exists post. exact Hp.
      * right. injection Hp as -> ->. eauto.
Qed.

Lemma restore_cmd_spawned self w dump :
  restore_cmd (spawned self w).1 dump = restore_cmd self dump.
Proof.
  destruct (spawned_spec self w) as (p & b & d & pre & _ & _ & Hport & _).
  unfold restore_cmd. rewrite Hport. reflexivity.
Qed.

(** [start()] once the port has answered and a dump is configured. *)
Lemma start_ready_dump env self w k dump :
  ready_at env (port self) (now w) k ->
  dump_file self = Some dump -> dump <> "" ->
  exists w1 pre,
    events w1 = pre ++ events w /\ no_stop pre
    /\ running (spawned self w).1 = true
    /\ start env self w
       = let cmd := restore_cmd self dump in
         let w2 := log (EvRestore cmd (mongorestore env cmd).1) w1 in
         if (mongorestore env cmd).1 =? 0 then
           let errs := List.filter (fun e => str_in "ERROR" e)
                         (mongorestore env cmd).2 in
           match errs with
           | [] => (Ok tt, (spawned self w).1, w2)
           | _ :: _ =>
               (Raise (Exception ("mongorestore errors:"
                                  +:+ join newline errs)),
                (spawned self w).1, w2)
           end
         else (Raise (CalledProcessError (mongorestore env cmd).1 cmd),
               (spawned self w).1, w2).
Proof.
  intros Hk Hd Hne.
  destruct (spawned_spec self w)
    as (p & b & d & pre & Hp & _ & _ & Hdump & Hnow & _ & _ & _ & Hev & Hns & _).
  rewrite (start_ready env self w k Hk).
  rewrite (start_restore_some env _ _ dump) by (rewrite ?Hdump; assumption).
  rewrite restore_cmd_spawned.
  eexists _, (EvTempfile _ :: EvConnect _ _ true :: EvPoll _ None
              :: idle_events (port self) (now w) k ++ pre).
  split; [|split; [|split; [|reflexivity]]].
  - simpl. rewrite events_idle, Hev, Hnow, <- app_assoc. reflexivity.
  - apply (no_stop_app [_; _; _]); [reflexivity|].
    auto with events.
  - unfold running. rewrite Hp. reflexivity.
Qed.

(** C10.  The port has answered, a dump is configured and the restore
    command exits with a status that is not 0.  Then [start()] raises the
    CalledProcessError of [check_call], with that status, whatever the command
    printed; this is not the exception of the output scan.  It is the last
    thing that [start()] does: nothing is stopped and the handle is held. *)
Theorem restore_failure_propagates env self w k dump :
  ready_at env (port self) (now w) k ->
  dump_file self = Some dump -> dump <> "" ->
  (mongorestore env (restore_cmd self dump)).1 <> 0 ->
  exists self' w' pre,
    start env self w
    = (Raise (CalledProcessError (mongorestore env (restore_cmd self dump)).1
                (restore_cmd self dump)), self', w')
    /\ ~ ImportError
         (CalledProcessError (mongorestore env (restore_cmd self dump)).1
            (restore_cmd self dump))
    /\ running self' = true
    /\ events w'
       = EvRestore (restore_cmd self dump)
           (mongorestore env (restore_cmd self dump)).1 :: pre ++ events w
    /\ no_stop pre.
Proof.
  intros Hk Hd Hne Hst.
  destruct (start_ready_dump env self w k dump Hk Hd Hne)
    as (w1 & pre & Hev & Hns & Hrun & ->).
  cbv zeta. apply Z.eqb_neq in Hst. rewrite Hst.
  eexists _, _, pre. split; [reflexivity|].
  split; [intros (errs & Herr); discriminate|].
  split; [assumption|]. split; [|assumption].
  simpl. rewrite Hev. reflexivity.
Qed.

Lemma ready_at_env_restore_exit1 :
  ready_at env_restore_exit1 (port box_dump) (now world0) 2.
Proof.
  split; [unfold max_polls; lia|]. split; [|split; reflexivity].
  intros j Hj. destruct j as [|[|j]]; [split; reflexivity..|lia].
Defined.

Lemma restore_failure_propagates_witness :
  (ready_at env_restore_exit1 (port box_dump) (now world0) 2
   /\ dump_file box_dump = Some "/dump" /\ "/dump" <> ""
   /\ (mongorestore env_restore_exit1 (restore_cmd box_dump "/dump")).1 <> 0)
  /\ exists self' w' pre,
      start env_restore_exit1 box_dump world0
      = (Raise (CalledProcessError
                  (mongorestore env_restore_exit1
                     (restore_cmd box_dump "/dump")).1
                  (restore_cmd box_dump "/dump")), self', w')
      /\ ~ ImportError
           (CalledProcessError
              (mongorestore env_restore_exit1
                 (restore_cmd box_dump "/dump")).1
              (restore_cmd box_dump "/dump"))
      /\ running self' = true
      /\ events w'
         = EvRestore (restore_cmd box_dump "/dump")
             (mongorestore env_restore_exit1
                (restore_cmd box_dump "/dump")).1 :: pre ++ events world0
      /\ no_stop pre.
Proof.
  assert ("/dump" <> "") as Hne by discriminate.
  assert ((mongorestore env_restore_exit1 (restore_cmd box_dump "/dump")).1
          <> 0) as Hst by discriminate.
  split; [exact (conj ready_at_env_restore_exit1
                   (conj eq_refl (conj Hne Hst)))|].
  exact (restore_failure_propagates env_restore_exit1 box_dump world0 2 "/dump"
           ready_at_env_restore_exit1 eq_refl Hne Hst).
Defined.

(** C5, as stated, fails where the restore command both prints an error
    line and exits with status 1: a dump is configured, the port answers at
    the third poll, a line of the output contains ERROR, and [start()]
    raises the CalledProcessError of [check_call], which is not the exception
    of the output scan. *)
Lemma error_line_without_import_error :
  ready_at env_restore_exit1 (port box_dump) (now world0) 2
  /\ truthy_str (dump_file box_dump) = true
  /\ (exists line,
         In line (mongorestore env_restore_exit1
                    (restore_cmd box_dump "/dump")).2
         /\ str_in "ERROR" line = true)
  /\ exists e self' w',
      start env_restore_exit1 box_dump world0 = (Raise e, self', w')
      /\ e = CalledProcessError 1 ["mongorestore"; "--port"; "27017"; "/dump"]
      /\ ~ ImportError e.
Proof.
  split; [exact ready_at_env_restore_exit1|].
  split; [reflexivity|]. split.
  - eexists. split; [left; reflexivity|reflexivity].
  - eexists _, _, _. split; [vm_compute; reflexivity|].
    split; [reflexivity|]. intros (errs & Herr). discriminate.
Qed.

(** C5, amended: the port has answered, a dump is configured, the restore
    command exits with status 0 and a line of its output contains ERROR.
    Then [start()] raises the exception that lists the lines with ERROR; the
    connect that succeeded precedes it, nothing is stopped and the handle is
    held. *)
Theorem import_error_raised env self w k dump :
  ready_at env (port self) (now w) k ->
  dump_file self = Some dump -> dump <> "" ->
  (mongorestore env (restore_cmd self dump)).1 = 0 ->
  (exists line pre post,
      In line (mongorestore env (restore_cmd self dump)).2
      /\ line = pre +:+ "ERROR" +:+ post) ->
  exists e self' w' pre,
    start env self w = (Raise e, self', w')
    /\ ImportError e
    /\ e = Exception
             ("mongorestore errors:"
              +:+ join newline
                    (List.filter (fun l => str_in "ERROR" l)
                       (mongorestore env (restore_cmd self dump)).2))
    /\ running self' = true
    /\ events w' = EvRestore (restore_cmd self dump) 0 :: pre ++ events w
    /\ no_stop pre
    /\ In (EvConnect (port self) (poll_time (now w) k) true) pre.
Proof.
  intros Hk Hd Hne Hst (line & pre & post & Hin & Hline).
  assert (In line (List.filter (fun l => str_in "ERROR" l)
                     (mongorestore env (restore_cmd self dump)).2)) as Hf.
  { apply filter_In. split; [assumption|]. apply str_in_spec. eauto. }
  destruct (spawned_spec self w)
    as (p & b & d & pre0 & Hp & _ & _ & Hdump & Hnow & _ & _ & _ & Hev & Hns & _).
  rewrite (start_ready env self w k Hk).
  rewrite (start_restore_some env _ _ dump) by (rewrite ?Hdump; assumption).
  rewrite restore_cmd_spawned. cbv zeta. rewrite Hst. simpl Z.eqb. cbv iota.
  destruct (List.filter _ _) as [|e errs] eqn:Hfl; [destruct Hf|].
  eexists _, _, _,
    (EvTempfile _ :: EvConnect _ _ true :: EvPoll _ None
     :: idle_events (port self) (now w) k ++ pre0).
  split; [reflexivity|].
  split; [eexists; reflexivity|]. split; [reflexivity|].
  split; [unfold running; rewrite Hp; reflexivity|]. split.
  { simpl. rewrite events_idle, Hev, Hnow, <- app_assoc. reflexivity. }
  split.
  - apply (no_stop_app [_; _; _]); [reflexivity|].
    auto with events.
  - right; left; reflexivity.
Qed.

Lemma ready_at_env_restore_error :
  ready_at env_restore_error (port box_dump) (now world0) 2.
Proof.
  split; [unfold max_polls; lia|]. split; [|split; reflexivity].
  intros j Hj. destruct j as [|[|j]]; [split; reflexivity..|lia].
Defined.

Lemma import_error_raised_witness :
  (ready_at env_restore_error (port box_dump) (now world0) 2
   /\ dump_file box_dump = Some "/dump" /\ "/dump" <> ""
   /\ (mongorestore env_restore_error (restore_cmd box_dump "/dump")).1 = 0
   /\ exists line pre post,
       In line (mongorestore env_restore_error
                  (restore_cmd box_dump "/dump")).2
       /\ line = pre +:+ "ERROR" +:+ post)
  /\ exists e self' w',
      start env_restore_error box_dump world0 = (Raise e, self', w')
      /\ ImportError e
      /\ running self' = true.
Proof.
  assert ("/dump" <> "") as Hne by discriminate.
  assert (exists line pre post,
             In line (mongorestore env_restore_error
                        (restore_cmd box_dump "/dump")).2
             /\ line = pre +:+ "ERROR" +:+ post) as Hline.
  { exists ("ERROR: duplicate key" +:+ newline), "",
      (": duplicate key" +:+ newline).
    split; [right; left; reflexivity|reflexivity]. }
  split;
    [exact (conj ready_at_env_restore_error
              (conj eq_refl (conj Hne (conj eq_refl Hline))))|].
  destruct (import_error_raised env_restore_error box_dump world0 2 "/dump"
              ready_at_env_restore_error eq_refl Hne eq_refl Hline)
    as (e & s' & w' & pre & Hs & Hi & _ & Hr & _).
  exists e, s', w'. split; [exact Hs|]. split; [exact Hi|exact Hr].
Defined.

(** ** Construction *)

Lemma or_str_falsy a b :
  truthy_str (or_str a b) = false
  <-> truthy_str a = false /\ truthy_str b = false.
Proof.
  unfold or_str. destruct (truthy_str a) eqn:Ha.
  - rewrite Ha. split; [discriminate|]. intros [? _]. discriminate.
  - split; [auto|]. intros [_ ?]. assumption.
Qed.

(** The constructor raises exactly when the resolved binary is falsy, or
    else when the data directory is a file. *)
Lemma init_raises env a w e :
  __init__ env a w = Raise e ->
  (e = AssertionError not_found_msg /\ binary_unresolved env a)
  \/ (e = AssertionError "DB path should be a directory, but it is a file."
      /\ db_path_is_file a w).
Proof.
  unfold __init__, binary_unresolved.
  pose proof (or_str_falsy (arg_mongod_bin a) (find_executable env MONGOD_BIN))
    as Hor.
  destruct (or_str _ _) as [bin|].
  - simpl in Hor. destruct (String.eqb bin "").
    + intros [= <-]. left. split; [reflexivity|]. apply Hor. reflexivity.
    + destruct (truthy_str (arg_db_path a) && _) eqn:Hchk; [|discriminate].
      intros [= <-]. right. split; [reflexivity|].
      apply andb_prop in Hchk. destruct Hchk as [Ht Hf].
      apply andb_prop in Hf. destruct Hf as [_ Hf].
      destruct (truthy_str_true _ Ht) as (p & Hp & Hne).
      exists p. rewrite Hp in Hf. simpl in Hf. unfold path_isfile in Hf.
      repeat split; try assumption.
      destruct (fs w !! p) as [[|]|]; congruence.
  - intros [= <-]. left. split; [reflexivity|]. apply Hor. reflexivity.
Qed.

Lemma init_returns env a w self :
  __init__ env a w = Ok self ->
  ~ binary_unresolved env a /\ ~ db_path_is_file a w.
Proof.
  intros Hinit. split.
  - intros Hun. apply or_str_falsy in Hun. revert Hinit. unfold __init__.
    destruct (or_str _ _) as [bin|]; [|discriminate].
    simpl in Hun. destruct (String.eqb bin ""); discriminate.
  - intros (p & Hp & Hne & Hfile).
    destruct (init_ok env a w self Hinit) as (_ & _ & _ & _ & Hno).
    exact (Hno p Hp Hne Hfile).
Qed.

(** C6.  The constructor raises if and only if the binary cannot be
    resolved or the data directory provided is a regular file; what it raises
    is then an AssertionError, the configuration error of the code; and when
    it returns, the instance holds no process. *)
Theorem init_configuration_error env a w :
  ((exists e, __init__ env a w = Raise e)
   <-> binary_unresolved env a \/ db_path_is_file a w)
  /\ (forall e, __init__ env a w = Raise e -> ConfigurationError e)
  /\ (~ (binary_unresolved env a \/ db_path_is_file a w) ->
      exists self,
        __init__ env a w = Ok self
        /\ process self = None /\ running self = false).
Proof.
  assert ((exists e, __init__ env a w = Raise e)
          <-> binary_unresolved env a \/ db_path_is_file a w) as Hiff.
  { split.
    - intros (e & He). destruct (init_raises env a w e He) as [[_ H]|[_ H]]; auto.
    - intros Hc. destruct (__init__ env a w) as [self|e] eqn:Hinit; [|eauto].
      destruct (init_returns env a w self Hinit) as [H1 H2].
      destruct Hc; contradiction. }
  split; [exact Hiff|]. split.
  - intros e He. destruct (init_raises env a w e He) as [[-> _]|[-> _]];
      eexists; reflexivity.
  - intros Hn. destruct (__init__ env a w) as [self|e] eqn:Hinit.
    + exists self. destruct (init_ok env a w self Hinit) as (_ & Hp & _).
      unfold running. rewrite Hp. auto.
    + exfalso. apply Hn, Hiff. eauto.
Qed.

(** C9, as stated, fails at [MongoBox(port=70000)]: the constructor
    returns and the configured port is 70000, outside 1..65535. *)
Lemma port_out_of_range_accepted :
  exists self,
    __init__ env_up args_port_70000 world0 = Ok self
    /\ port self = 70000
    /\ ~ valid_port (port self).
Proof.
  eexists. split; [reflexivity|]. split; [reflexivity|].
  unfold valid_port. simpl. lia.
Qed.

(** C9, amended: the configured port is the port of the caller when there
    is one and it is not 0, and the port of the allocator otherwise; so it is
    in 1..65535 exactly when that value is, the constructor checks no range. *)
Theorem configured_port env a w self :
  __init__ env a w = Ok self ->
  (forall n, arg_port a = Some n -> n <> 0 -> port self = n)
  /\ (arg_port a = None \/ arg_port a = Some 0 ->
      port self = get_free_port env)
  /\ (valid_port (port self)
      <-> valid_port (or_int (arg_port a) (get_free_port env))).
Proof.
  intros Hinit. destruct (init_ok env a w self Hinit) as (_ & _ & Hport & _).
  rewrite Hport. unfold or_int. split; [|split; [|reflexivity]].
  - intros n -> Hn. simpl. apply Z.eqb_neq in Hn. rewrite Hn. reflexivity.
  - intros [->| ->]; reflexivity.
Qed.

Lemma configured_port_witness :
  __init__ env_up args_port_70000 world0 = Ok
    {| mongod_bin := "/usr/bin/mongod"; port := 70000; log_path := devnull;
       scripting := true; prealloc := false; db_path := None; auth := false;
       dump_file := None; process := None; _db_path_is_temporary := None |}
  /\ forall n, arg_port args_port_70000 = Some n -> n <> 0 -> 70000 = n.
Proof.
  split; [reflexivity|].
  exact (proj1 (configured_port env_up args_port_70000 world0 _ eq_refl)).
Defined.

(** ** [stop()] twice, and the scope *)

(** C8.  Without a handle [stop()] returns at once and changes neither the
    instance nor the world.  A [stop()] that has returned leaves no handle, so
    a second [stop()] right after it is of that kind.  And the first one does
    return on every instance that [start()] has left, whatever the outcome of
    [start()] was. *)
Theorem stop_idempotent env self w :
  (process self = None ->
   running self = false /\ stop env self w = (Ok tt, self, w))
  /\ (forall s1 w1,
         stop env self w = (Ok tt, s1, w1) ->
         running s1 = false /\ stop env s1 w1 = (Ok tt, s1, w1))
  /\ (forall o s1 w1,
         start env self w = (o, s1, w1) ->
         exists s2 w2,
           stop env s1 w1 = (Ok tt, s2, w2)
           /\ running s2 = false
           /\ stop env s2 w2 = (Ok tt, s2, w2)).
Proof.
  split; [|split].
  - intros Hp. unfold running. rewrite Hp. split; [reflexivity|].
    apply stop_idle. assumption.
  - intros s1 w1 Hstop. pose proof (stop_ok_idle env self w s1 w1 Hstop) as Hp.
    unfold running. rewrite Hp. split; [reflexivity|].
    apply stop_idle. assumption.
  - intros o s1 w1 Hstart.
    destruct (stop_stoppable env s1 w1 (start_stoppable env self w o s1 w1 Hstart))
      as (s2 & w2 & Hstop & Hp).
    exists s2, w2. split; [assumption|].
    unfold running. rewrite Hp. split; [reflexivity|].
    apply stop_idle. assumption.
Qed.

Lemma stoppable_advance self w ms :
  stoppable self w -> stoppable self (advance ms w).
Proof. intros Hs p Hp. exact (Hs p Hp). Qed.

Lemma enter_ok env self w h s1 w1 :
  __enter__ env self w = (Ok h, s1, w1) ->
  h = s1 /\ start env self w = (Ok tt, s1, w1).
Proof.
  unfold __enter__. destruct (start env self w) as [[[[]|e] s] w'].
  - intros [= <- <- <-]. auto.
  - discriminate.
Qed.

(** C7.  A scope is entered: [__enter__] has run [start()], which returned,
    and yields the instance itself.  Then whatever the body does with it, end
    normally or raise, [__exit__] runs [stop()], which returns; the scope ends
    the way the body ended, and no handle is held after it. *)
Theorem scope_stops env body self w h s1 w1 :
  __enter__ env self w = (Ok h, s1, w1) ->
  h = s1
  /\ start env self w = (Ok tt, s1, w1)
  /\ exists s2 w2,
      __exit__ env s1 (advance (body h (now w1)).2 w1) = (Ok tt, s2, w2)
      /\ stop env s1 (advance (body h (now w1)).2 w1) = (Ok tt, s2, w2)
      /\ with_ env body self w = ((body h (now w1)).1, s2, w2)
      /\ running s2 = false.
Proof.
  intros Henter. destruct (enter_ok env self w h s1 w1 Henter) as [-> Hstart].
  split; [reflexivity|]. split; [assumption|].
  pose proof (start_stoppable env self w _ s1 w1 Hstart) as Hs.
  destruct (stop_stoppable env s1 (advance (body s1 (now w1)).2 w1)
              (stoppable_advance s1 w1 _ Hs))
    as (s2 & w2 & Hstop & Hp).
  exists s2, w2. split; [exact Hstop|]. split; [exact Hstop|].
  split.
  - unfold with_. rewrite Henter.
    destruct (body s1 (now w1)) as [r ms]. simpl in *.
    unfold __exit__. rewrite Hstop. reflexivity.
  - unfold running. rewrite Hp. reflexivity.
Qed.

Lemma scope_stops_witness :
  let r := __enter__ env_up box0 world0 in
  __enter__ env_up box0 world0 = (Ok r.1.2, r.1.2, r.2)
  /\ exists s2 w2,
      with_ env_up body_raises box0 world0
      = (Raise (Exception "boom"), s2, w2)
      /\ running s2 = false.
Proof.
  intros r.
  assert (__enter__ env_up box0 world0 = (Ok r.1.2, r.1.2, r.2)) as H
    by (vm_compute; reflexivity).
  split; [exact H|].
  destruct (scope_stops env_up body_raises box0 world0 r.1.2 r.1.2 r.2 H)
    as (_ & _ & s2 & w2 & _ & _ & Hw & Hr).
  exists s2, w2. split; [exact Hw|exact Hr].
Defined.

(** * Properties of the whole lifecycle *)

(** ** When the cleanup fails *)

Lemma append_empty_r s : s +:+ "" = s.
Proof.
  induction s as [|a s IH]; [reflexivity|].
  change (String a (s +:+ "") = String a s). f_equal. exact IH.
Qed.

Lemma fresh_string_prefix {A} (m : stringmap A) s :
  exists x, fresh_string s m = s +:+ x.
Proof.
  unfold fresh_string. destruct (m !! s) as [a|] eqn:Hs.
  - clear a Hs.
    generalize 0%N (wf_guard 32 (fresh_string_R_wf s m) 0%N). revert m.
    fix FIX 3; intros m n [?]; simpl; unfold fresh_string_go at 1; simpl.
    destruct (Some_dec (m !! _)) as [[??]|?]; eauto.
  - exists "". symmetry. apply append_empty_r.
Qed.

Lemma tmp_name_nonempty w : tmp_name w <> "".
Proof.
  unfold tmp_name. destruct (fresh_string_prefix (fs w) "/tmp/tmp") as [x ->].
  discriminate.
Qed.

Lemma rmtree_not_dir d w :
  fs w !! d <> Some Dir -> rmtree d w = (Raise (OSError d), w).
Proof.
  unfold rmtree. destruct (fs w !! d) as [[|]|]; congruence.
Qed.

(** [stop()] on an instance whose temporary directory is not a directory. *)
Lemma stop_not_dir env self w p d :
  process self = Some p ->
  _db_path_is_temporary self = Some true ->
  db_path self = Some d ->
  fs w !! d <> Some Dir ->
  exists p' w',
    stop env self w = (Raise (OSError d), set_process (Some p') self, w')
    /\ returncode p' <> None
    /\ popen_args p' = popen_args p
    /\ fs w' = fs w /\ now w' = now w
    /\ (returncode p = None ->
        child_poll env (now w) = None ->
        events w' = EvWait (child_wait env (now w))
                      :: EvSignal (stop_signal env)
                      :: EvPoll (now w) None :: events w).
Proof.
  intros Hp Hb Hd Hdir. unfold stop. rewrite Hp.
  unfold Popen_send_signal, Popen_poll, Popen_wait, stop_signal.
  destruct (returncode p) as [c|] eqn:Hr;
    [|destruct (child_poll env (now w)) as [c|]];
    destruct (String.eqb (platform env) "darwin"); simpl; rewrite ?Hr; simpl;
    rewrite Hb; simpl; rewrite Hd, rmtree_not_dir by (simpl; assumption);
    eexists _, _; (split; [reflexivity|]); simpl;
    repeat split; congruence.
Qed.

(** X4.  [stop()] is not atomic.  When the temporary directory of an
    instance is no longer a directory, [stop()] raises the error of [rmtree]
    after the child has been dealt with: the handle is still held, now with
    an exit status, the path is still recorded, and every further [stop()]
    raises the same error and changes nothing. *)
Theorem stop_fails_and_keeps_handle env self w p d :
  process self = Some p ->
  _db_path_is_temporary self = Some true ->
  db_path self = Some d ->
  fs w !! d <> Some Dir ->
  exists self' w',
    stop env self w = (Raise (OSError d), self', w')
    /\ running self' = true
    /\ db_path self' = Some d
    /\ fs w' = fs w
    /\ stop env self' w' = (Raise (OSError d), self', w').
Proof.
  intros Hp Hb Hd Hdir.
  destruct (stop_not_dir env self w p d Hp Hb Hd Hdir)
    as (p' & w' & Hstop & Hr & _ & Hfs & _).
  exists (set_process (Some p') self), w'.
  split; [exact Hstop|]. split; [reflexivity|]. split; [exact Hd|].
  split; [exact Hfs|].
  destruct (returncode p') as [c|] eqn:Hc; [|congruence].
  unfold stop. simpl.
  unfold Popen_send_signal, Popen_poll, Popen_wait. rewrite Hc.
  destruct (String.eqb (platform env) "darwin"); simpl; rewrite ?Hc; simpl;
    rewrite Hb; simpl; rewrite Hd, rmtree_not_dir by (rewrite Hfs; assumption);
    destruct self; reflexivity.
Qed.

Lemma stop_fails_and_keeps_handle_witness :
  (process box_lost = Some {| popen_args := ["/usr/bin/mongod"];
                              returncode := None |}
   /\ _db_path_is_temporary box_lost = Some true
   /\ db_path box_lost = Some "/gone"
   /\ fs world0 !! "/gone" <> Some Dir)
  /\ exists self' w',
      stop env_down box_lost world0 = (Raise (OSError "/gone"), self', w')
      /\ running self' = true
      /\ db_path self' = Some "/gone"
      /\ fs w' = fs world0
      /\ stop env_down self' w' = (Raise (OSError "/gone"), self', w').
Proof.
  assert (fs world0 !! "/gone" <> Some Dir) as Hdir by discriminate.
  split; [exact (conj eq_refl (conj eq_refl (conj eq_refl Hdir)))|].
  exact (stop_fails_and_keeps_handle env_down box_lost world0 _ "/gone"
           eq_refl eq_refl eq_refl Hdir).
Defined.

(** X3.  The cleanup of the loop swallows that failure.  Take an instance
    on a port that [connect] takes, with a running child and a temporary
    directory that is not a directory; nothing happens during the startup
    window, and the child is still running when it ends.  Then
    [_wait_till_started] signals the child, waits for it, and returns False
    although [stop()] raised; the handle is still held.  ([start()] never
    hands such an instance to the loop: the directory it made is there.) *)
Theorem cleanup_failure_is_swallowed env self w p d :
  tcp_port (port self) ->
  process self = Some p ->
  returncode p = None ->
  _db_path_is_temporary self = Some true ->
  db_path self = Some d ->
  fs w !! d <> Some Dir ->
  quiet env (port self) (now w) max_polls ->
  child_poll env (now w + startup_delay) = None ->
  exists self' w' pre,
    (stop env self (idle (port self) max_polls w)).1.1 = Raise (OSError d)
    /\ _wait_till_started env self startup_delay w = (Ok false, self', w')
    /\ running self' = true
    /\ events w'
       = EvWait (child_wait env (now w + startup_delay))
           :: EvSignal (stop_signal env) :: pre ++ events w
    /\ no_stop pre /\ no_connect pre.
Proof.
  intros _ Hp Hr Hb Hd Hdir Hq Hrun.
  rewrite (wait_till_started_timeout env self w p Hp Hr Hq).
  assert (now (idle (port self) max_polls w) = now w + startup_delay) as Hdl.
  { rewrite now_idle. reflexivity. }
  destruct (stop_not_dir env self (idle (port self) max_polls w) p d)
    as (p' & w' & Hstop & _ & _ & _ & Hnow & Hev);
    [assumption..|rewrite fs_idle; assumption|].
  rewrite Hstop. simpl.
  exists (set_process (Some p') self), w',
    (EvPoll (now w + startup_delay) None
     :: idle_events (port self) (now w) max_polls).
  split; [reflexivity|]. split; [reflexivity|]. split; [reflexivity|].
  split.
  { rewrite (Hev Hr) by (rewrite Hdl; exact Hrun).
    rewrite Hdl, events_idle. reflexivity. }
  split.
  - apply (no_stop_app [_]); [reflexivity|]. auto with events.
  - apply (no_connect_app [_]); [reflexivity|]. auto with events.
Qed.

Lemma cleanup_failure_is_swallowed_witness :
  (tcp_port (port box_lost)
   /\ process box_lost = Some {| popen_args := ["/usr/bin/mongod"];
                                 returncode := None |}
   /\ _db_path_is_temporary box_lost = Some true
   /\ db_path box_lost = Some "/gone"
   /\ fs world0 !! "/gone" <> Some Dir
   /\ quiet env_down (port box_lost) (now world0) max_polls
   /\ child_poll env_down (now world0 + startup_delay) = None)
  /\ exists self' w',
      _wait_till_started env_down box_lost startup_delay world0
      = (Ok false, self', w')
      /\ running self' = true.
Proof.
  assert (tcp_port (port box_lost)) as Hport by (unfold tcp_port; simpl; lia).
  assert (fs world0 !! "/gone" <> Some Dir) as Hdir by discriminate.
  assert (quiet env_down (port box_lost) (now world0) max_polls) as Hq.
  { intros j Hj. split; reflexivity. }
  split;
    [exact (conj Hport (conj eq_refl (conj eq_refl (conj eq_refl
              (conj Hdir (conj Hq eq_refl))))))|].
  destruct (cleanup_failure_is_swallowed env_down box_lost world0 _ "/gone"
              Hport eq_refl eq_refl eq_refl eq_refl Hdir Hq eq_refl)
    as (s' & w' & pre & _ & Hw & Hr & _).
  exists s', w'. split; [exact Hw|exact Hr].
Defined.

(** ** The configuration never changes *)

Lemma same_config_refl a : same_config a a.
Proof. repeat split. Qed.

Lemma same_config_trans a b c :
  same_config a b -> same_config b c -> same_config a c.
Proof.
  unfold same_config. intros (?&?&?&?&?&?&?) (?&?&?&?&?&?&?).
  repeat split; congruence.
Qed.

Lemma stop_same_config env self w :
  same_config self (stop env self w).1.2.
Proof.
  unfold stop. destruct (process self) as [p|]; [|apply same_config_refl].
  destruct (if String.eqb (platform env) "darwin" then _ else _) as [p0 w0].
  destruct (Popen_wait env p0 w0) as [p' w1].
  (destruct (_db_path_is_temporary _) as [[|]|]; simpl;
     [destruct (db_path self) as [d|]; simpl;
      [destruct (rmtree d w1) as [[[]|e] w2]|]| |]);
    repeat split.
Qed.

Lemma wait_loop_same_config env deadline :
  forall fuel self w o s w',
    wait_loop env fuel deadline self w = Some (o, s, w') ->
    same_config self s.
Proof.
  induction fuel as [|fuel IH]; intros self w o s w'; simpl; [discriminate|].
  destruct (now w <? deadline).
  - destruct (process self) as [p|].
    + destruct (Popen_poll env p w) as [[r p'] w1].
      destruct r as [c|].
      * intros [= <- <- <-]. repeat split.
      * destruct (port_open env _ _).
        -- intros [= <- <- <-]. repeat split.
        -- intros H. apply IH in H.
           eapply same_config_trans; [|exact H]. repeat split.
    + intros [= <- <- <-]. apply same_config_refl.
  - pose proof (stop_same_config env self w) as Hs.
    destruct (stop env self w) as [[o' s'] w1].
    intros [= <- <- <-]. exact Hs.
Qed.

Lemma start_same_config env self w :
  same_config self (start env self w).1.2.
Proof.
  rewrite start_spawned.
  assert (same_config self (spawned self w).1) as H0.
  { unfold spawned, start_db_path.
    destruct (db_path self) as [q|]; [destruct (truthy_str _)|];
      [destruct (negb _); [unfold os_mkdir; destruct (fs w !! q)|]| |];
      repeat split. }
  destruct (wait_till_started_some env (spawned self w).1 startup_delay
              (spawned self w).2) as (r & Hloop & ->).
  destruct r as [[o s] w'].
  apply wait_loop_same_config in Hloop.
  pose proof (same_config_trans _ _ _ H0 Hloop) as H1.
  destruct o as [[|]|e]; simpl; try exact H1.
  destruct (start_restore_spec env s w') as (o' & w2 & pre & -> & _).
  exact H1.
Qed.

(** X5.  The configuration of an instance (binary, port, log path, the
    three flags and the dump file) is the same after [start()], after
    [stop()] and after a whole scope, whatever their outcome. *)
Theorem configuration_is_kept env body self w :
  same_config self (start env self w).1.2
  /\ same_config self (stop env self w).1.2
  /\ same_config self (with_ env body self w).1.2.
Proof.
  split; [apply start_same_config|]. split; [apply stop_same_config|].
  unfold with_, __enter__, __exit__.
  pose proof (start_same_config env self w) as H1.
  destruct (start env self w) as [[[[]|e] s1] w1]; simpl in *; [|exact H1].
  destruct (body s1 (now w1)) as [r ms].
  pose proof (stop_same_config env s1 (advance ms w1)) as H2.
  destruct (stop env s1 (advance ms w1)) as [[[[]|e] s2] w2]; simpl in *;
    exact (same_config_trans _ _ _ H1 H2).
Qed.

(** ** The loop for any delay *)

Lemma polls_in_le_fuel delay :
  exists rest, wait_fuel delay = (polls_in delay + S rest)%nat.
Proof.
  unfold wait_fuel, polls_in.
  assert ((delay + 249) / 250 <= delay / 250 + 1) as Hle.
  { rewrite <- (Z.div_add delay 1 250) by lia.
    apply Z.div_le_mono; lia. }
  exists (Z.to_nat (delay / 250 + 1) - Z.to_nat ((delay + 249) / 250))%nat.
  lia.
Qed.

Lemma polls_in_reach delay : delay <= 250 * Z.of_nat (polls_in delay).
Proof.
  unfold polls_in.
  destruct (Z.le_gt_cases ((delay + 249) / 250) 0) as [Hle|Hgt].
  - assert (delay <= 0); [|lia].
    destruct (Z.le_gt_cases delay 0) as [?|Hpos]; [assumption|].
    assert (1 <= (delay + 249) / 250); [|lia].
    apply Z.div_le_lower_bound; lia.
  - rewrite Z2Nat.id by lia.
    pose proof (Z.mul_succ_div_gt (delay + 249) 250). lia.
Qed.

Lemma polls_in_before delay :
  (0 < polls_in delay)%nat -> 250 * Z.of_nat (polls_in delay) < delay + 250.
Proof.
  unfold polls_in. intros Hpos.
  assert (0 < (delay + 249) / 250) as Hq by lia.
  rewrite Z2Nat.id by lia.
  pose proof (Z.mul_div_le (delay + 249) 250). lia.
Qed.

(** X6.  The loop for any delay.  With a running child and a port that
    [connect] takes and that refuses every connection,
    [_wait_till_started] polls once every 250 ms, delay/250 times rounded up,
    then calls [stop()] and returns False.  A delay that is not positive
    leaves no poll: [stop()] is called at once, with no look at the child or
    at the port. *)
Theorem wait_till_started_deadline env self w delay p :
  tcp_port (port self) ->
  process self = Some p ->
  returncode p = None ->
  quiet env (port self) (now w) (polls_in delay) ->
  _wait_till_started env self delay w
  = (Ok false,
     (stop env self (idle (port self) (polls_in delay) w)).1.2,
     (stop env self (idle (port self) (polls_in delay) w)).2)
  /\ (delay <= 0 -> idle (port self) (polls_in delay) w = w).
Proof.
  intros _ Hp Hr Hq. split.
  - unfold _wait_till_started.
    destruct (polls_in_le_fuel delay) as [rest ->].
    pose proof (polls_in_reach delay) as Hreach.
    assert (wait_loop env (polls_in delay + S rest) (now w + delay) self w
            = wait_loop env (S rest) (now w + delay) self
                (idle (port self) (polls_in delay) w)) as ->.
    { destruct (polls_in delay) as [|n] eqn:Hn; [reflexivity|].
      apply (wait_loop_quiet env _ self p (S n) Hp Hr); [assumption|].
      pose proof (polls_in_before delay) as Hb. rewrite Hn in Hb. lia. }
    pose proof (now_idle (port self) (polls_in delay) w) as Hnow.
    remember (idle (port self) (polls_in delay) w) as w1 eqn:Hw1.
    simpl wait_loop.
    destruct (Z.ltb_spec (now w1) (now w + delay)) as [Hlt|Hge]; [lia|].
    destruct (stop env self w1) as [[o s] w']. reflexivity.
  - intros Hle. unfold polls_in.
    assert ((delay + 249) / 250 <= 0) as Hq0.
    { apply Z.lt_succ_r. apply Z.div_lt_upper_bound; lia. }
    replace (Z.to_nat ((delay + 249) / 250)) with 0%nat by lia. reflexivity.
Qed.

Lemma wait_till_started_deadline_witness :
  (tcp_port (port box_lost)
   /\ process box_lost = Some {| popen_args := ["/usr/bin/mongod"];
                                 returncode := None |}
   /\ quiet env_down (port box_lost) (now world0) (polls_in 1000))
  /\ _wait_till_started env_down box_lost 1000 world0
     = (Ok false,
        (stop env_down box_lost (idle (port box_lost) 4 world0)).1.2,
        (stop env_down box_lost (idle (port box_lost) 4 world0)).2).
Proof.
  assert (quiet env_down (port box_lost) (now world0) (polls_in 1000)) as Hq.
  { intros j Hj. split; reflexivity. }
  assert (tcp_port (port box_lost)) as Hport by (unfold tcp_port; simpl; lia).
  split; [exact (conj Hport (conj eq_refl Hq))|].
  exact (proj1 (wait_till_started_deadline env_down box_lost world0 1000 _
                  Hport eq_refl eq_refl Hq)).
Defined.

(** ** What decides the outcome of [start()] *)

Lemma int_of_string_str z :
  NilZero.int_of_string (str z) = Some (Z.to_int z).
Proof.
  unfold str. apply NilZero.isi.
  - destruct z as [|p|p]; simpl; try discriminate.
    intros [= H]. exact (Unsigned.to_uint_nonnil p H).
  - destruct z as [|p|p]; simpl; try discriminate.
    intros [= H]. exact (Unsigned.to_uint_nonnil p H).
Qed.

Lemma str_inj a b : str a = str b -> a = b.
Proof.
  intros H. apply DecimalZ.to_int_inj.
  pose proof (int_of_string_str a) as Ha. rewrite H, int_of_string_str in Ha.
  congruence.
Qed.

Lemma append_inj_l p : forall x y, p +:+ x = p +:+ y -> x = y.
Proof.
  induction p as [|a p IH]; intros x y H; [exact H|].
  apply IH. injection H as H. exact H.
Qed.

Lemma quiet_not_ready env prt t0 k :
  quiet env prt t0 max_polls -> ready_at env prt t0 k -> False.
Proof.
  intros Hq (Hk & _ & _ & Hopen). destruct (Hq k Hk) as [_ Hclosed].
  congruence.
Qed.

Lemma quiet_not_crashed env prt t0 k c :
  quiet env prt t0 max_polls -> crashed_at env prt t0 k c -> False.
Proof.
  intros Hq (Hk & _ & Hgone). destruct (Hq k Hk) as [Hruns _]. congruence.
Qed.

Lemma ready_not_crashed env prt t0 k k' c :
  ready_at env prt t0 k -> crashed_at env prt t0 k' c -> False.
Proof.
  intros (Hk & Hq & Hruns & Hopen) (Hk' & Hq' & Hgone).
  destruct (lt_eq_lt_dec k k') as [[Hlt|Heq]|Hgt].
  - destruct (Hq' k Hlt) as [_ Hclosed]. congruence.
  - subst k'. congruence.
  - destruct (Hq k' Hgt) as [Hruns' _]. congruence.
Qed.

Lemma crashed_same env prt t0 k k' c c' :
  crashed_at env prt t0 k c -> crashed_at env prt t0 k' c' ->
  k = k' /\ c = c'.
Proof.
  intros (Hk & Hq & Hgone) (Hk' & Hq' & Hgone').
  destruct (lt_eq_lt_dec k k') as [[Hlt|Heq]|Hgt].
  - destruct (Hq' k Hlt) as [Hruns _]. congruence.
  - subst k'. split; congruence.
  - destruct (Hq k' Hgt) as [Hruns _]. congruence.
Qed.

Lemma restore_clean_spawned env self w :
  restore_clean env (spawned self w).1 <-> restore_clean env self.
Proof.
  destruct (spawned_spec self w) as (p & b & d & pre & _ & _ & _ & Hdump & _).
  unfold restore_clean. rewrite Hdump.
  split; (intros [Hn|(dump & H)]; [left; exact Hn|right; exists dump]);
    [rewrite restore_cmd_spawned in H|rewrite restore_cmd_spawned];
    exact H.
Qed.

(** The three outcomes of the import. *)
Lemma start_restore_outcome env self w :
  ((start_restore env self w).1.1 = Ok tt /\ restore_clean env self)
  \/ ((exists errs,
         (start_restore env self w).1.1
         = Raise (Exception ("mongorestore errors:" +:+ join newline errs)))
      /\ ~ restore_clean env self)
  \/ ((exists c cmd,
         (start_restore env self w).1.1 = Raise (CalledProcessError c cmd))
      /\ ~ restore_clean env self).
Proof.
  destruct (truthy_str (dump_file self)) eqn:Ht.
  - destruct (truthy_str_true _ Ht) as (dump & Hd & Hne).
    rewrite (start_restore_some env self w dump Hd Hne). cbv zeta.
    assert (forall P : Prop,
               (forall Hst : (mongorestore env (restore_cmd self dump)).1 = 0,
                   List.filter (fun l => str_in "ERROR" l)
                     (mongorestore env (restore_cmd self dump)).2 = [] -> P) ->
               restore_clean env self -> P) as Hclean.
    { intros P HP [Hn|(dump' & Hd' & _ & Hst & Hf)]; [congruence|].
      rewrite Hd in Hd'. injection Hd' as <-. auto. }
    destruct (Z.eqb_spec (mongorestore env (restore_cmd self dump)).1 0)
      as [Hst|Hst].
    + destruct (List.filter _ _) as [|e errs] eqn:Hf.
      * left. split; [reflexivity|]. right. exists dump.
        repeat split; assumption.
      * right; left. split; [eexists; reflexivity|].
        intros Hc. apply (Hclean False); [|exact Hc].
        intros _ Hnil. discriminate.
    + right; right. split; [eexists _, _; reflexivity|].
      intros Hc. apply (Hclean False); [|exact Hc].
      intros Hst' _. contradiction.
  - rewrite (start_restore_none env self w Ht). left. split; [reflexivity|].
    left. exact Ht.
Qed.

(** X7.  On a port that [connect] takes, [start()] raises the exception
    of the timeout exactly when all 60 polls of the startup window find the
    child running and the port refusing the connection. *)
Theorem start_times_out_iff env self w :
  tcp_port (port self) ->
  (exists self' w',
      start env self w
      = (Raise (Exception "mongo server did not start after 0:00:15"),
         self', w'))
  <-> quiet env (port self) (now w) max_polls.
Proof.
  intros _. split.
  - intros (s' & w' & Hstart).
    destruct (startup_cases env (port self) (now w))
      as [Hq|[(k & Hk)|(k & c & Hk)]]; [exact Hq| |].
    + exfalso. rewrite (start_ready env self w k Hk) in Hstart.
      pose proof (f_equal (fun r => r.1.1) Hstart) as Ho. simpl in Ho.
      destruct (start_restore_outcome env (spawned self w).1
                  (log (EvConnect (port self) (poll_time (now w) k) true)
                     (log (EvPoll (poll_time (now w) k) None)
                        (idle (port self) k (spawned self w).2))))
        as [[H _]|[[(errs & H) _]|[(c & cmd & H) _]]];
        rewrite H in Ho; discriminate.
    + exfalso. destruct (start_crashed env self w k c Hk) as (p & _ & Heq).
      rewrite Heq in Hstart. discriminate.
  - intros Hq. rewrite (start_quiet env self w Hq). eauto.
Qed.

Lemma start_times_out_iff_witness :
  tcp_port (port box0)
  /\ ((exists self' w',
         start env_down box0 world0
         = (Raise (Exception "mongo server did not start after 0:00:15"),
            self', w'))
      <-> quiet env_down (port box0) (now world0) max_polls).
Proof.
  assert (tcp_port (port box0)) as Hport by (unfold tcp_port; simpl; lia).
  split; [exact Hport|].
  exact (start_times_out_iff env_down box0 world0 Hport).
Defined.

(** X8.  On a port that [connect] takes, [start()] raises the exception
    of the crash with status [c] exactly when some poll of the startup window
    is the first event of the window and finds the child gone with status
    [c]: the status in the message is the one that [poll()] returned. *)
Theorem start_crashes_iff env self w c :
  tcp_port (port self) ->
  (exists e self' w',
      start env self w = (Raise e, self', w') /\ StartupCrashError c e)
  <-> exists k, crashed_at env (port self) (now w) k c.
Proof.
  intros _. unfold StartupCrashError. split.
  - intros (e & s' & w' & Hstart & ->).
    destruct (startup_cases env (port self) (now w))
      as [Hq|[(k & Hk)|(k & c' & Hk)]].
    + exfalso. rewrite (start_quiet env self w Hq) in Hstart. discriminate.
    + exfalso. rewrite (start_ready env self w k Hk) in Hstart.
      pose proof (f_equal (fun r => r.1.1) Hstart) as Ho. simpl in Ho.
      destruct (start_restore_outcome env (spawned self w).1
                  (log (EvConnect (port self) (poll_time (now w) k) true)
                     (log (EvPoll (poll_time (now w) k) None)
                        (idle (port self) k (spawned self w).2))))
        as [[H _]|[[(errs & H) _]|[(c0 & cmd & H) _]]];
        rewrite H in Ho; discriminate.
    + destruct (start_crashed env self w k c' Hk) as (p & _ & Heq).
      rewrite Heq in Hstart. injection Hstart as Hmsg _ _.
      apply append_inj_l, str_inj in Hmsg. subst c'. eauto.
  - intros (k & Hk).
    destruct (start_crashed env self w k c Hk) as (p & _ & ->). eauto.
Qed.

Lemma start_crashes_iff_witness :
  tcp_port (port box0)
  /\ ((exists e self' w',
         start env_crash box0 world0 = (Raise e, self', w')
         /\ StartupCrashError 1 e)
      <-> exists k, crashed_at env_crash (port box0) (now world0) k 1).
Proof.
  assert (tcp_port (port box0)) as Hport by (unfold tcp_port; simpl; lia).
  split; [exact Hport|].
  exact (start_crashes_iff env_crash box0 world0 1 Hport).
Defined.

(** X9.  [start()] returns without an exception exactly when some poll of
    the startup window finds the child running and the port open, with
    nothing before it, and the import has nothing to report: no dump is
    configured, or the restore command exits with status 0 and prints no
    line with ERROR. *)
Theorem start_returns_iff env self w :
  (exists self' w', start env self w = (Ok tt, self', w'))
  <-> (exists k, ready_at env (port self) (now w) k)
      /\ restore_clean env self.
Proof.
  split.
  - intros (s' & w' & Hstart).
    destruct (startup_cases env (port self) (now w))
      as [Hq|[(k & Hk)|(k & c & Hk)]].
    + rewrite (start_quiet env self w Hq) in Hstart. discriminate.
    + split; [eauto|]. rewrite (start_ready env self w k Hk) in Hstart.
      pose proof (f_equal (fun r => r.1.1) Hstart) as Ho. simpl in Ho.
      destruct (start_restore_outcome env (spawned self w).1
                  (log (EvConnect (port self) (poll_time (now w) k) true)
                     (log (EvPoll (poll_time (now w) k) None)
                        (idle (port self) k (spawned self w).2))))
        as [[_ Hc]|[[(errs & H) _]|[(c0 & cmd & H) _]]].
      * exact (proj1 (restore_clean_spawned env self w) Hc).
      * rewrite H in Ho. discriminate.
      * rewrite H in Ho. discriminate.
    + destruct (start_crashed env self w k c Hk) as (p & _ & Heq).
      rewrite Heq in Hstart. discriminate.
  - intros ((k & Hk) & Hc). rewrite (start_ready env self w k Hk).
    apply (proj2 (restore_clean_spawned env self w)) in Hc.
    destruct (start_restore_outcome env (spawned self w).1
                (log (EvConnect (port self) (poll_time (now w) k) true)
                   (log (EvPoll (poll_time (now w) k) None)
                      (idle (port self) k (spawned self w).2))))
      as [[H _]|[[_ Hn]|[_ Hn]]]; try contradiction.
    destruct (start_restore env _ _) as [[o s'] w']. simpl in H. subst o.
    eauto.
Qed.

(** ** The filesystem across the lifecycle *)

(** No method but [start()] touches the flag, and [start()] sets it from
    the data directory it finds. *)
Lemma stop_flag env self w :
  _db_path_is_temporary (stop env self w).1.2 = _db_path_is_temporary self.
Proof.
  unfold stop. destruct (process self) as [p|]; [|reflexivity].
  destruct (if String.eqb (platform env) "darwin" then _ else _) as [p0 w0].
  destruct (Popen_wait env p0 w0) as [p' w1]; simpl.
  (destruct (_db_path_is_temporary self) as [[|]|] eqn:Hb; simpl;
     [destruct (db_path self) as [d|]; simpl;
      [destruct (rmtree d w1) as [[[]|e] w2]|]| |]);
    simpl; congruence.
Qed.

Lemma wait_loop_flag env deadline :
  forall fuel self w o s w',
    wait_loop env fuel deadline self w = Some (o, s, w') ->
    _db_path_is_temporary s = _db_path_is_temporary self.
Proof.
  induction fuel as [|fuel IH]; intros self w o s w'; simpl; [discriminate|].
  destruct (now w <? deadline).
  - destruct (process self) as [p|].
    + destruct (Popen_poll env p w) as [[r p'] w1].
      destruct r as [c|].
      * intros [= <- <- <-]. reflexivity.
      * destruct (port_open env _ _).
        -- intros [= <- <- <-]. reflexivity.
        -- intros H. apply IH in H. exact H.
    + intros [= <- <- <-]. reflexivity.
  - pose proof (stop_flag env self w) as Hs.
    destruct (stop env self w) as [[o' s'] w1].
    intros [= <- <- <-]. exact Hs.
Qed.

Lemma start_flag env self w :
  _db_path_is_temporary (start env self w).1.2
  = Some (negb (truthy_str (db_path self))).
Proof.
  rewrite start_spawned.
  destruct (spawned_spec self w)
    as (p & b & d & pre & _ & _ & _ & _ & _ & Hb & _ & -> & _).
  destruct (wait_till_started_some env (spawned self w).1 startup_delay
              (spawned self w).2) as (r & Hloop & ->).
  destruct r as [[o s] w'].
  apply wait_loop_flag in Hloop. rewrite Hb in Hloop.
  destruct o as [[|]|e]; simpl; try exact Hloop.
  destruct (start_restore_spec env s w') as (o' & w2 & pre' & -> & _).
  exact Hloop.
Qed.

(** The paths that exist when [start()] is called exist after the spawn. *)
Lemma spawned_keeps_paths self w q x :
  fs w !! q = Some x -> fs (spawned self w).2 !! q = Some x.
Proof.
  intros Hq.
  destruct (spawned_spec self w)
    as (p & b & d & pre & _ & _ & _ & _ & _ & _ & _ & _ & _ & _ & _ & Ht & He).
  destruct b.
  - destruct (Ht eq_refl) as (-> & -> & _).
    rewrite lookup_insert_ne; [exact Hq|].
    intros <-. rewrite tmp_name_fresh in Hq. discriminate.
  - destruct (He eq_refl) as (_ & _ & ->). unfold path_exists.
    destruct (fs w !! d) eqn:Hd; [exact Hq|].
    rewrite lookup_insert_ne; [exact Hq|]. intros <-. congruence.
Qed.

(** X10.  [start()] and [stop()] leave the rest of the filesystem alone:
    a path that exists before [start()], and is not at or below the name that
    [mkdtemp] picks, exists with the same kind after [start()] and after the
    [stop()] that follows, whatever their outcome. *)
Theorem lifecycle_keeps_other_paths env self w o s1 w1 o2 s2 w2 :
  start env self w = (o, s1, w1) ->
  stop env s1 w1 = (o2, s2, w2) ->
  forall q x,
    fs w !! q = Some x ->
    under (tmp_name w) q = false ->
    fs w1 !! q = Some x /\ fs w2 !! q = Some x.
Proof.
  intros Hstart Hstop q x Hq Hu.
  pose proof (spawned_keeps_paths self w q x Hq) as Hqp.
  destruct (start_post env self w o s1 w1 Hstart) as (_ & _ & Hcases).
  destruct (spawned_spec self w)
    as (p0 & b & d & pre & _ & _ & _ & _ & _ & Hb & Hd & _ & _ & _ & _ & Ht & _).
  assert (b = true -> without d (fs (spawned self w).2) !! q = Some x) as Hw.
  { intros ->. destruct (Ht eq_refl) as (-> & _).
    rewrite lookup_without, Hu. exact Hqp. }
  destruct Hcases as [(Hnone & _ & Hst)|(p & Hp & Hb1 & Hd1 & _ & Hfs)].
  - destruct (Hst b d Hb Hd) as (_ & Hfs1).
    rewrite (stop_idle env s1 w1 Hnone) in Hstop. injection Hstop as <- <- <-.
    rewrite Hfs1. destruct b; auto.
  - rewrite Hb in Hb1. rewrite Hd in Hd1.
    split; [auto|].
    destruct (stop_held env s1 w1 p b d) as (s' & w' & Hstop' & _ & _ & Hfs2);
      auto.
    { intros ->. apply Hfs. apply lookup_spawned_dir; assumption. }
    rewrite Hstop' in Hstop. injection Hstop as <- <- <-.
    rewrite Hfs2. destruct b; [|auto].
    destruct (Ht eq_refl) as (-> & _). rewrite lookup_without, Hu. auto.
Qed.

Lemma lifecycle_keeps_other_paths_witness :
  let w := {| now := 0; fs := {[ "/etc/hosts" := File ]}; events := [] |} in
  let r1 := start env_up box0 w in
  let r2 := stop env_up r1.1.2 r1.2 in
  (start env_up box0 w = (r1.1.1, r1.1.2, r1.2)
   /\ stop env_up r1.1.2 r1.2 = (r2.1.1, r2.1.2, r2.2)
   /\ fs w !! "/etc/hosts" = Some File
   /\ under (tmp_name w) "/etc/hosts" = false)
  /\ fs r1.2 !! "/etc/hosts" = Some File
  /\ fs r2.2 !! "/etc/hosts" = Some File.
Proof.
  intros w r1 r2.
  assert (start env_up box0 w = (r1.1.1, r1.1.2, r1.2)) as H1
    by (vm_compute; reflexivity).
  assert (stop env_up r1.1.2 r1.2 = (r2.1.1, r2.1.2, r2.2)) as H2
    by (vm_compute; reflexivity).
  assert (fs w !! "/etc/hosts" = Some File) as H3 by reflexivity.
  assert (under (tmp_name w) "/etc/hosts" = false) as H4
    by (vm_compute; reflexivity).
  split; [exact (conj H1 (conj H2 (conj H3 H4)))|].
  exact (lifecycle_keeps_other_paths env_up box0 w r1.1.1 r1.1.2 r1.2
           r2.1.1 r2.1.2 r2.2 H1 H2 "/etc/hosts" File H3 H4).
Defined.

(** X11.  [start()] on an instance that still holds the handle and the
    temporary directory of an earlier [start()], as after a crash at startup,
    finds the path set and takes the directory for one the caller supplied.
    The [stop()] that follows returns and leaves no handle, but the temporary
    directory stays on disk and stays recorded as the data directory. *)
Theorem restart_without_stop_leaks env self w o1 s1 w1 o2 s2 w2 o3 s3 w3 :
  truthy_str (db_path self) = false ->
  start env self w = (o1, s1, w1) ->
  running s1 = true ->
  start env s1 w1 = (o2, s2, w2) ->
  stop env s2 w2 = (o3, s3, w3) ->
  o3 = Ok tt
  /\ running s3 = false
  /\ fs w3 !! tmp_name w = Some Dir
  /\ db_path s3 = Some (tmp_name w).
Proof.
  intros Ht Hstart1 Hrun Hstart2 Hstop.
  (* the first start: the handle is held, on the temporary directory *)
  destruct (start_post env self w o1 s1 w1 Hstart1) as (_ & _ & Hcases1).
  destruct (spawned_spec self w)
    as (p0 & b & d & pre & _ & _ & _ & _ & _ & Hb & Hd & Hbv & _ & _ & _
        & Htemp & _).
  rewrite Ht in Hbv. simpl in Hbv. subst b.
  destruct (Htemp eq_refl) as (-> & _ & _).
  destruct Hcases1 as [(Hnone & _)|(p1 & Hp1 & _ & Hd1 & _ & Hfs1)].
  { unfold running in Hrun. rewrite Hnone in Hrun. discriminate. }
  rewrite Hd in Hd1.
  assert (fs w1 !! tmp_name w = Some Dir) as Hdir1.
  { apply Hfs1. apply lookup_spawned_dir; assumption. }
  (* the second start: the directory counts as supplied *)
  destruct (start_post env s1 w1 o2 s2 w2 Hstart2) as (_ & _ & Hcases2).
  destruct (spawned_spec s1 w1)
    as (p0' & b' & d' & pre' & _ & _ & _ & _ & _ & Hb' & Hd' & Hbv' & _ & _ & _
        & _ & Hexpl).
  assert (b' = false) as ->.
  { rewrite Hbv', Hd1. simpl.
    destruct (String.eqb_spec (tmp_name w) ""); [|reflexivity].
    exfalso. eapply tmp_name_nonempty. eassumption. }
  destruct (Hexpl eq_refl) as (Hd0 & _ & Hfsp).
  rewrite Hd1 in Hd0. injection Hd0 as <-.
  unfold path_exists in Hfsp. rewrite Hdir1 in Hfsp.
  destruct Hcases2 as [(Hnone & _ & Hst)|(p2 & Hp2 & Hb2 & Hd2 & _ & Hfs2)].
  - destruct (Hst false (tmp_name w) Hb' Hd') as (Hd2 & Hfs2).
    rewrite (stop_idle env s2 w2 Hnone) in Hstop. injection Hstop as <- <- <-.
    split; [reflexivity|]. split; [unfold running; rewrite Hnone; reflexivity|].
    split; [rewrite Hfs2, Hfsp; exact Hdir1|exact Hd2].
  - rewrite Hb' in Hb2. rewrite Hd' in Hd2.
    destruct (stop_held env s2 w2 p2 false (tmp_name w))
      as (s' & w' & Hstop' & Hidle & Hd3 & Hfs3); auto; [discriminate|].
    rewrite Hstop' in Hstop. injection Hstop as <- <- <-.
    split; [reflexivity|]. split; [unfold running; rewrite Hidle; reflexivity|].
    split; [|exact Hd3].
    rewrite Hfs3. apply Hfs2. rewrite Hfsp. exact Hdir1.
Qed.

Lemma restart_without_stop_leaks_witness :
  let r1 := start env_crash box0 world0 in
  let r2 := start env_crash r1.1.2 r1.2 in
  let r3 := stop env_crash r2.1.2 r2.2 in
  (truthy_str (db_path box0) = false
   /\ start env_crash box0 world0 = (r1.1.1, r1.1.2, r1.2)
   /\ running r1.1.2 = true
   /\ start env_crash r1.1.2 r1.2 = (r2.1.1, r2.1.2, r2.2)
   /\ stop env_crash r2.1.2 r2.2 = (r3.1.1, r3.1.2, r3.2))
  /\ r3.1.1 = Ok tt
  /\ running r3.1.2 = false
  /\ fs r3.2 !! tmp_name world0 = Some Dir
  /\ db_path r3.1.2 = Some (tmp_name world0).
Proof.
  intros r1 r2 r3.
  assert (start env_crash box0 world0 = (r1.1.1, r1.1.2, r1.2)) as H1
    by (vm_compute; reflexivity).
  assert (running r1.1.2 = true) as H2 by (vm_compute; reflexivity).
  assert (start env_crash r1.1.2 r1.2 = (r2.1.1, r2.1.2, r2.2)) as H3
    by (vm_compute; reflexivity).
  assert (stop env_crash r2.1.2 r2.2 = (r3.1.1, r3.1.2, r3.2)) as H4
    by (vm_compute; reflexivity).
  split; [exact (conj eq_refl (conj H1 (conj H2 (conj H3 H4))))|].
  exact (restart_without_stop_leaks env_crash box0 world0 _ _ _ _ _ _ _ _ _
           eq_refl H1 H2 H3 H4).
Defined.

(** ** A scope that is not entered *)

Lemma start_crash_inv env self w e s1 w1 c :
  start env self w = (Raise e, s1, w1) ->
  StartupCrashError c e ->
  exists k p,
    crashed_at env (port self) (now w) k c
    /\ process (spawned self w).1 = Some p
    /\ s1 = set_process (Some (set_returncode (Some c) p)) (spawned self w).1
    /\ w1 = log (EvPoll (poll_time (now w) k) (Some c))
              (idle (port self) k (spawned self w).2).
Proof.
  unfold StartupCrashError. intros Hstart ->.
  destruct (startup_cases env (port self) (now w))
    as [Hq|[(k & Hk)|(k & c' & Hk)]].
  - exfalso. rewrite (start_quiet env self w Hq) in Hstart. discriminate.
  - exfalso. rewrite (start_ready env self w k Hk) in Hstart.
    pose proof (f_equal (fun r => r.1.1) Hstart) as Ho. simpl in Ho.
    destruct (start_restore_outcome env (spawned self w).1
                (log (EvConnect (port self) (poll_time (now w) k) true)
                   (log (EvPoll (poll_time (now w) k) None)
                      (idle (port self) k (spawned self w).2))))
      as [[H _]|[[(errs & H) _]|[(c0 & cmd & H) _]]];
      rewrite H in Ho; discriminate.
  - destruct (start_crashed env self w k c' Hk) as (p & Hp & Heq).
    rewrite Heq in Hstart. injection Hstart as Hmsg <- <-.
    apply append_inj_l, str_inj in Hmsg. subst c'. eauto 10.
Qed.

(** X12.  When [start()] raises, the scope is not entered: the body is
    not run, [__exit__] is not called, and the scope ends with the exception
    and the state of [start()].  After a crash at startup that state still
    holds the handle of the dead child and, on an instance without a data
    directory, the temporary directory: nothing stops the instance. *)
Theorem scope_not_entered env body self w e s1 w1 :
  start env self w = (Raise e, s1, w1) ->
  with_ env body self w = (Raise e, s1, w1)
  /\ forall c,
      StartupCrashError c e ->
      running s1 = true
      /\ (truthy_str (db_path self) = false ->
          db_path s1 = Some (tmp_name w)
          /\ fs w1 !! tmp_name w = Some Dir).
Proof.
  intros Hstart. split.
  - unfold with_, __enter__. rewrite Hstart. reflexivity.
  - intros c Hc.
    destruct (start_crash_inv env self w e s1 w1 c Hstart Hc)
      as (k & p & _ & _ & -> & ->).
    split; [reflexivity|]. intros Ht.
    destruct (spawned_spec self w)
      as (p0 & b & d & pre & _ & _ & _ & _ & _ & Hb & Hd & Hbv & _ & _ & _
          & Htemp & _).
    rewrite Ht in Hbv. simpl in Hbv. subst b.
    destruct (Htemp eq_refl) as (-> & _ & _).
    split; [exact Hd|]. simpl. rewrite fs_idle.
    apply lookup_spawned_dir; assumption.
Qed.

Lemma scope_not_entered_witness :
  let r := start env_crash box0 world0 in
  start env_crash box0 world0
  = (Raise (Exception "mongo server stopped during startup with exit code 1"),
     r.1.2, r.2)
  /\ with_ env_crash body_raises box0 world0
     = (Raise (Exception
                 "mongo server stopped during startup with exit code 1"),
        r.1.2, r.2)
  /\ running r.1.2 = true.
Proof.
  intros r.
  assert (start env_crash box0 world0
          = (Raise (Exception
                      "mongo server stopped during startup with exit code 1"),
             r.1.2, r.2)) as H by (vm_compute; reflexivity).
  split; [exact H|].
  destruct (scope_not_entered env_crash body_raises box0 world0 _ _ _ H)
    as (Hw & Hc).
  split; [exact Hw|]. exact (proj1 (Hc 1 eq_refl)).
Defined.

(** ** One child, sixty connects, fifteen seconds *)

Lemma connects_app l1 l2 : connects (l1 ++ l2) = (connects l1 + connects l2)%nat.
Proof. unfold connects. rewrite List.filter_app, List.length_app. reflexivity. Qed.

Lemma spawns_app l1 l2 : spawns (l1 ++ l2) = (spawns l1 + spawns l2)%nat.
Proof. unfold spawns. rewrite List.filter_app, List.length_app. reflexivity. Qed.

Lemma connects_idle_events prt k :
  forall t0, connects (idle_events prt t0 k) = k.
Proof.
  induction k as [|k IH]; intros t0; simpl; [reflexivity|].
  rewrite connects_app, IH. unfold connects. simpl. lia.
Qed.

Lemma spawns_idle_events prt k :
  forall t0, spawns (idle_events prt t0 k) = 0%nat.
Proof.
  induction k as [|k IH]; intros t0; simpl; [reflexivity|].
  rewrite spawns_app, IH. reflexivity.
Qed.

Lemma spawn_args_spawned self w d :
  db_path (spawned self w).1 = Some d ->
  exists pre,
    events (spawned self w).2 = EvSpawn (spawn_args self d) :: pre ++ events w
    /\ spawns pre = 0%nat /\ connects pre = 0%nat
    /\ (truthy_str (db_path self) = true -> db_path self = Some d)
    /\ (truthy_str (db_path self) = false -> d = tmp_name w).
Proof.
  unfold spawned. destruct (truthy_str (db_path self)) eqn:Ht.
  - destruct (truthy_str_true _ Ht) as (p & Hp & Hne).
    rewrite (start_db_path_explicit self w p Hp Hne). simpl. rewrite Hp.
    intros [= <-].
    exists (if path_exists w p then [] else [EvMkdir p]).
    destruct (path_exists w p); repeat split; auto; discriminate.
  - rewrite (start_db_path_temporary self w Ht). simpl. intros [= <-].
    exists [EvMkdtemp (tmp_name w)]. repeat split; auto; discriminate.
Qed.

(** The events of the import and of [stop()] hold no connect and no spawn. *)
Lemma start_restore_events env self w :
  exists pre,
    events (start_restore env self w).2 = pre ++ events w
    /\ connects pre = 0%nat /\ spawns pre = 0%nat
    /\ now (start_restore env self w).2 = now w.
Proof.
  destruct (truthy_str (dump_file self)) eqn:Ht.
  - destruct (truthy_str_true _ Ht) as (dump & Hd & Hne).
    rewrite (start_restore_some env self w dump Hd Hne). cbv zeta.
    destruct (_ =? 0); [destruct (List.filter _ _)|];
      exists [EvRestore (restore_cmd self dump)
                (mongorestore env (restore_cmd self dump)).1;
              EvTempfile (tmp_name w)];
      repeat split.
  - rewrite (start_restore_none env self w Ht). exists []. repeat split.
Qed.

(** X13.  Take an instance whose port is one that [connect] takes, and a
    [start()] that returned or raised one of its own exceptions: the timeout,
    the crash of the child, the errors of the restore command or its exit
    status.  It spawned exactly one child, on the command line built from
    the configuration and from the data directory (the one supplied, or the
    name [mkdtemp] picks); it made at most 60 connect attempts, all after the
    spawn; and it ended no later than the 15 s of the startup delay after it
    began, on the clock that only [time.sleep] advances. *)
Theorem start_is_bounded env self w o s1 w1 :
  tcp_port (port self) ->
  start env self w = (o, s1, w1) ->
  (o = Ok tt
   \/ exists e,
       o = Raise e
       /\ (StartupTimeoutError e \/ (exists c, StartupCrashError c e)
           \/ ImportError e \/ exists c cmd, e = CalledProcessError c cmd)) ->
  exists post pre d,
    events w1 = post ++ EvSpawn (spawn_args self d) :: pre ++ events w
    /\ spawns post = 0%nat /\ spawns pre = 0%nat
    /\ (connects post <= 60)%nat /\ connects pre = 0%nat
    /\ (truthy_str (db_path self) = true -> db_path self = Some d)
    /\ (truthy_str (db_path self) = false -> d = tmp_name w)
    /\ now w <= now w1 <= now w + startup_delay.
Proof.
  intros _ Hstart _.
  destruct (spawned_spec self w)
    as (p & b & d & pre0 & Hp & Hr & _ & _ & Hnow & Hb & Hd & _).
  destruct (spawn_args_spawned self w d Hd)
    as (pre & Hev & Hsp & Hcn & Hd1 & Hd2).
  destruct (startup_cases env (port self) (now w))
    as [Hq|[(k & Hk)|(k & c & Hk)]].
  - rewrite (start_quiet env self w Hq) in Hstart.
    destruct (stop_any env (spawned self w).1
                (idle (port self) max_polls (spawned self w).2) p b d)
      as (s' & w' & post & Hstop & _ & _ & _ & Hnow' & _ & Hev' & Hcn' & Hsp');
      [assumption..|intros ->; rewrite fs_idle;
                    apply lookup_spawned_dir; assumption|].
    rewrite Hstop in Hstart. simpl in Hstart. injection Hstart as <- <- <-.
    exists (post ++ idle_events (port self) (now (spawned self w).2) max_polls),
      pre, d.
    split.
    { rewrite Hev', events_idle, Hev, <- app_assoc. reflexivity. }
    rewrite spawns_app, connects_app, spawns_idle_events, connects_idle_events.
    rewrite now_idle, Hnow in Hnow'. rewrite Hsp', Hcn'.
    unfold startup_delay, max_polls in *.
    repeat split; auto; simpl; lia.
  - rewrite (start_ready env self w k Hk) in Hstart.
    destruct (start_restore_events env (spawned self w).1
                (log (EvConnect (port self) (poll_time (now w) k) true)
                   (log (EvPoll (poll_time (now w) k) None)
                      (idle (port self) k (spawned self w).2))))
      as (post & Hev' & Hcn' & Hsp' & Hnow').
    rewrite Hstart in Hev', Hnow'. simpl in Hev', Hnow'.
    rewrite events_idle, Hev in Hev'. rewrite now_idle, Hnow in Hnow'.
    exists (post ++ EvConnect (port self) (poll_time (now w) k) true
                 :: EvPoll (poll_time (now w) k) None
                 :: idle_events (port self) (now (spawned self w).2) k),
      pre, d.
    split; [rewrite Hev', <- !app_assoc; reflexivity|].
    rewrite spawns_app, connects_app.
    change (?a :: ?b :: idle_events ?x ?y ?z)
      with ([a; b] ++ idle_events x y z).
    rewrite spawns_app, connects_app, spawns_idle_events, connects_idle_events.
    destruct Hk as (Hk & _). unfold startup_delay, max_polls in *.
    rewrite Hsp', Hcn'. repeat split; auto; simpl; lia.
  - destruct (start_crashed env self w k c Hk) as (p' & _ & Heq).
    rewrite Heq in Hstart. injection Hstart as <- <- <-.
    exists (EvPoll (poll_time (now w) k) (Some c)
            :: idle_events (port self) (now (spawned self w).2) k),
      pre, d.
    split.
    { simpl. rewrite events_idle, Hev. reflexivity. }
    change (?a :: idle_events ?x ?y ?z) with ([a] ++ idle_events x y z).
    rewrite spawns_app, connects_app, spawns_idle_events, connects_idle_events.
    destruct Hk as (Hk & _). unfold startup_delay, max_polls in *.
    simpl now. rewrite now_idle, Hnow.
    repeat split; auto; simpl; lia.
Qed.

Lemma start_is_bounded_witness :
  let r := start env_down box0 world0 in
  let e := Exception "mongo server did not start after 0:00:15" in
  (tcp_port (port box0)
   /\ start env_down box0 world0 = (Raise e, r.1.2, r.2)
   /\ StartupTimeoutError e)
  /\ exists post pre d,
      events r.2 = post ++ EvSpawn (spawn_args box0 d) :: pre ++ events world0
      /\ spawns post = 0%nat /\ (connects post <= 60)%nat
      /\ now r.2 <= now world0 + startup_delay.
Proof.
  intros r e.
  assert (tcp_port (port box0)) as Hport by (unfold tcp_port; simpl; lia).
  assert (start env_down box0 world0 = (Raise e, r.1.2, r.2)) as H
    by (vm_compute; reflexivity).
  assert (StartupTimeoutError e) as He by reflexivity.
  split; [exact (conj Hport (conj H He))|].
  destruct (start_is_bounded env_down box0 world0 _ _ _ Hport H
              (or_intror (ex_intro _ e (conj eq_refl (or_introl He)))))
    as (post & pre & d & Hev & Hsp & _ & Hcn & _ & _ & _ & _ & Hnow).
  exists post, pre, d. repeat split; assumption.
Defined.

(** ** The command line of the child *)

(** X14.  The command line that [start()] builds has the binary, the
    five default options, the data directory, the port and the log path in
    its first twelve words, in this order; after them come [--auth] exactly
    when authentication is on, [--noscripting] exactly when scripting is off
    and [--noprealloc] exactly when preallocation is off.  It determines all
    of these: two command lines are equal only for the same binary, data
    directory, port, log path and flags. *)
Theorem spawn_command_line self d :
  firstn 12 (spawn_args self d)
  = [mongod_bin self; "--quiet"; "--nohttpinterface"; "--nounixsocket";
     "--smallfiles"; "--nojournal"; "--dbpath"; d; "--port"; str (port self);
     "--logpath"; log_path self]
  /\ (In "--auth" (skipn 12 (spawn_args self d)) <-> auth self = true)
  /\ (In "--noscripting" (skipn 12 (spawn_args self d))
      <-> scripting self = false)
  /\ (In "--noprealloc" (skipn 12 (spawn_args self d))
      <-> prealloc self = false)
  /\ forall self' d',
      spawn_args self d = spawn_args self' d' ->
      mongod_bin self = mongod_bin self' /\ d = d'
      /\ port self = port self' /\ log_path self = log_path self'
      /\ auth self = auth self' /\ scripting self = scripting self'
      /\ prealloc self = prealloc self'.
Proof.
  unfold spawn_args, DEFAULT_ARGS.
  split; [reflexivity|].
  split; [|split; [|split]].
  - destruct (auth self), (scripting self), (prealloc self); simpl;
      intuition discriminate.
  - destruct (auth self), (scripting self), (prealloc self); simpl;
      intuition discriminate.
  - destruct (auth self), (scripting self), (prealloc self); simpl;
      intuition discriminate.
  - intros self' d' H. simpl in H.
    injection H as Hbin Hd Hport Hlog Hflags.
    apply str_inj in Hport.
    repeat split; try assumption;
      destruct (auth self), (scripting self), (prealloc self),
        (auth self'), (scripting self'), (prealloc self');
      simpl in Hflags; try reflexivity; discriminate.
Qed.

(** ** The signal *)

(** X15.  [stop()] on a child that is running when it is called,
    whatever else the instance holds and whatever the outcome: it sends one
    signal, SIGKILL on darwin and SIGTERM on every other platform, then waits
    for the child, and only then removes a directory, if it removes one.
    Before the signal it sends nothing and waits for nothing. *)
Theorem stop_signals_then_waits env self w p :
  process self = Some p ->
  returncode p = None ->
  child_poll env (now w) = None ->
  (stop_signal env = SIGKILL <-> platform env = "darwin")
  /\ exists post pre,
      events (stop env self w).2
      = post ++ EvWait (child_wait env (now w))
          :: EvSignal (stop_signal env) :: pre ++ events w
      /\ no_stop pre /\ no_connect pre
      /\ (post = []
          \/ exists d,
              post = [EvRmtree d]
              /\ db_path self = Some d
              /\ _db_path_is_temporary self = Some true).
Proof.
  intros Hp Hr Hrun. split.
  - unfold stop_signal. destruct (String.eqb_spec (platform env) "darwin");
      split; intros H; congruence.
  - unfold stop. rewrite Hp.
    unfold Popen_send_signal, Popen_poll, Popen_wait, stop_signal.
    rewrite Hr, Hrun.
    destruct (String.eqb (platform env) "darwin"); simpl;
      (destruct (_db_path_is_temporary self) as [[|]|]; simpl;
       [destruct (db_path self) as [d|]; simpl;
        [unfold rmtree; simpl; destruct (fs w !! d) as [[|]|]; simpl|]| |]);
      first [ solve [exists [], [EvPoll (now w) None];
                     repeat split; left; reflexivity]
            | solve [eexists [_], [EvPoll (now w) None];
                     repeat split; right; eauto] ].
Qed.

Lemma stop_signals_then_waits_witness :
  (process box_lost = Some {| popen_args := ["/usr/bin/mongod"];
                              returncode := None |}
   /\ child_poll env_down (now world0) = None)
  /\ exists post pre,
      events (stop env_down box_lost world0).2
      = post ++ EvWait (child_wait env_down (now world0))
          :: EvSignal SIGTERM :: pre ++ events world0
      /\ no_stop pre.
Proof.
  split; [split; reflexivity|].
  destruct (stop_signals_then_waits env_down box_lost world0 _
              eq_refl eq_refl eq_refl) as (_ & post & pre & Hev & Hns & _).
  exists post, pre. exact (conj Hev Hns).
Defined.

(** ** The output file of the restore command *)

Lemma str_in_slash_char a s :
  a <> "/"%char -> str_in "/" (String a s) = str_in "/" s.
Proof.
  intros Hne. rewrite str_in_cons.
  destruct (String.prefix "/" (String a s)) eqn:H; [|reflexivity].
  apply prefix_spec in H. destruct H as (post & H).
  injection H as -> _. contradiction.
Qed.

Lemma pretty_N_char_not_slash x : pretty_N_char x <> "/"%char.
Proof. unfold pretty_N_char. repeat case_match; discriminate. Qed.

Lemma pretty_N_go_no_slash x :
  forall s, str_in "/" s = false -> str_in "/" (pretty_N_go x s) = false.
Proof.
  induction (N.lt_wf_0 x) as [x _ IH]; intros s Hs.
  destruct (decide (x = 0%N)) as [->|Hx].
  - rewrite pretty_N_go_0. exact Hs.
  - rewrite pretty_N_go_step by lia.
    apply IH; [apply N.div_lt; lia|].
    rewrite str_in_slash_char by apply pretty_N_char_not_slash. exact Hs.
Qed.

Lemma pretty_N_no_slash (n : N) : str_in "/" (pretty n) = false.
Proof.
  unfold pretty, pretty_N. destruct (decide (n = 0%N)); [reflexivity|].
  apply pretty_N_go_no_slash. reflexivity.
Qed.

(** The names that [mkdtemp] and [NamedTemporaryFile] pick. *)
Lemma fresh_string_shape {A} (m : stringmap A) s :
  exists x, fresh_string s m = s +:+ x /\ str_in "/" x = false.
Proof.
  unfold fresh_string. destruct (m !! s) as [a|] eqn:Hs.
  - clear a Hs.
    generalize 0%N (wf_guard 32 (fresh_string_R_wf s m) 0%N). revert m.
    fix FIX 3; intros m n [?]; simpl; unfold fresh_string_go at 1; simpl.
    destruct (Some_dec (m !! _)) as [[??]|?]; [auto|].
    exists (pretty n). split; [reflexivity|apply pretty_N_no_slash].
  - exists "". split; [symmetry; apply append_empty_r|reflexivity].
Qed.

Lemma append_assoc a : forall b c, (a +:+ b) +:+ c = a +:+ b +:+ c.
Proof.
  induction a as [|x a IH]; intros b c; [reflexivity|].
  change (String x ((a +:+ b) +:+ c) = String x (a +:+ b +:+ c)).
  f_equal. apply IH.
Qed.

(** A temporary name never lies below another one. *)
Lemma tmp_name_not_under w w' :
  tmp_name w <> tmp_name w' -> under (tmp_name w) (tmp_name w') = false.
Proof.
  intros Hne. unfold under.
  destruct (String.eqb_spec (tmp_name w) (tmp_name w')); [contradiction|].
  simpl. destruct (String.prefix _ _) eqn:Hpre; [|reflexivity].
  exfalso. apply prefix_spec in Hpre. destruct Hpre as (post & Hpost).
  unfold tmp_name in Hpost.
  destruct (fresh_string_shape (fs w) "/tmp/tmp") as (x & Hx & _).
  destruct (fresh_string_shape (fs w') "/tmp/tmp") as (y & Hy' & Hy).
  rewrite Hx, Hy' in Hpost. rewrite !append_assoc in Hpost. apply append_inj_l in Hpost.
  assert (str_in "/" y = true) as Hin.
  { apply str_in_spec. exists x, post. exact Hpost. }
  congruence.
Qed.

Lemma start_restore_world env self w dump :
  dump_file self = Some dump -> dump <> "" ->
  (start_restore env self w).1.2 = self
  /\ (start_restore env self w).2
     = log (EvRestore (restore_cmd self dump)
              (mongorestore env (restore_cmd self dump)).1)
         (NamedTemporaryFile w).2.
Proof.
  intros Hd Hne. rewrite (start_restore_some env self w dump Hd Hne). cbv zeta.
  destruct (_ =? 0); [destruct (List.filter _ _)|]; split; reflexivity.
Qed.

(** X16.  The file that captures the output of the restore command is
    never removed.  Once the port has answered and a dump is configured,
    [start()] creates it under a name that nothing had, whatever the restore
    command then does; it is there when [start()] ends and still there after
    the [stop()] that follows, which removes at most the temporary data
    directory. *)
Theorem restore_output_is_left env self w k dump o s1 w1 o2 s2 w2 :
  ready_at env (port self) (now w) k ->
  dump_file self = Some dump -> dump <> "" ->
  start env self w = (o, s1, w1) ->
  stop env s1 w1 = (o2, s2, w2) ->
  exists f post,
    fs w !! f = None
    /\ events w1 = post ++ events w
    /\ In (EvTempfile f) post
    /\ fs w1 !! f = Some File
    /\ o2 = Ok tt
    /\ fs w2 !! f = Some File.
Proof.
  intros Hk Hdump Hne Hstart Hstop.
  destruct (spawned_spec self w)
    as (p & b & d & pre & Hp & _ & _ & Hdump' & _ & Hb & Hd & _ & Hev & _ & _
        & Htemp & _).
  rewrite (start_ready env self w k Hk) in Hstart.
  set (wk := log (EvConnect (port self) (poll_time (now w) k) true)
               (log (EvPoll (poll_time (now w) k) None)
                  (idle (port self) k (spawned self w).2))) in *.
  assert (fs wk = fs (spawned self w).2) as Hfsk.
  { unfold wk. simpl. apply fs_idle. }
  destruct (start_restore_world env (spawned self w).1 wk dump)
    as (Hs & Hw); [congruence|assumption|].
  rewrite Hstart in Hs, Hw. simpl in Hs, Hw. subst s1.
  set (f := tmp_name wk) in *.
  assert (fs wk !! f = None) as Hfresh by apply tmp_name_fresh.
  assert (fs w1 = <[f := File]> (fs wk)) as Hfs1 by (rewrite Hw; reflexivity).
  assert (fs w1 !! f = Some File) as Hf1.
  { rewrite Hfs1. apply lookup_insert_eq. }
  assert (b = true -> fs wk !! d = Some Dir) as Hdirk.
  { intros ->. rewrite Hfsk. apply lookup_spawned_dir; assumption. }
  assert (b = true -> d <> f) as Hdf.
  { intros Hbt ->. rewrite (Hdirk Hbt) in Hfresh. discriminate. }
  destruct (stop_held env (spawned self w).1 w1 p b d)
    as (s' & w' & Hstop' & _ & _ & Hfs2); auto.
  { intros Hbt. rewrite Hfs1, lookup_insert_ne by (symmetry; auto). auto. }
  rewrite Hstop' in Hstop. injection Hstop as <- <- <-.
  exists f, (EvRestore (restore_cmd (spawned self w).1 dump)
               (mongorestore env (restore_cmd (spawned self w).1 dump)).1
             :: EvTempfile f
             :: EvConnect (port self) (poll_time (now w) k) true
             :: EvPoll (poll_time (now w) k) None
             :: idle_events (port self) (now (spawned self w).2) k ++ pre).
  split.
  { destruct (fs w !! f) as [x|] eqn:Hwf; [|reflexivity].
    rewrite Hfsk, (spawned_keeps_paths self w f x Hwf) in Hfresh.
    discriminate. }
  split.
  { rewrite Hw. simpl. rewrite events_idle, Hev, <- app_assoc. reflexivity. }
  split; [right; left; reflexivity|].
  split; [exact Hf1|]. split; [reflexivity|].
  rewrite Hfs2. destruct b; [|exact Hf1].
  pose proof (Hdf eq_refl) as Hne'.
  destruct (Htemp eq_refl) as (Hdt & _).
  rewrite lookup_without.
  replace (under d f) with false; [exact Hf1|].
  symmetry. rewrite Hdt in *. apply tmp_name_not_under. exact Hne'.
Qed.

Lemma restore_output_is_left_witness :
  let r1 := start env_restore_error box_dump world0 in
  let r2 := stop env_restore_error r1.1.2 r1.2 in
  (ready_at env_restore_error (port box_dump) (now world0) 2
   /\ dump_file box_dump = Some "/dump" /\ "/dump" <> ""
   /\ start env_restore_error box_dump world0 = (r1.1.1, r1.1.2, r1.2)
   /\ stop env_restore_error r1.1.2 r1.2 = (r2.1.1, r2.1.2, r2.2))
  /\ exists f,
      fs world0 !! f = None
      /\ fs r1.2 !! f = Some File
      /\ fs r2.2 !! f = Some File.
Proof.
  intros r1 r2.
  assert ("/dump" <> "") as Hne by discriminate.
  assert (start env_restore_error box_dump world0 = (r1.1.1, r1.1.2, r1.2))
    as H1 by (vm_compute; reflexivity).
  assert (stop env_restore_error r1.1.2 r1.2 = (r2.1.1, r2.1.2, r2.2))
    as H2 by (vm_compute; reflexivity).
  split;
    [exact (conj ready_at_env_restore_error
              (conj eq_refl (conj Hne (conj H1 H2))))|].
  destruct (restore_output_is_left env_restore_error box_dump world0 2 "/dump"
              _ _ _ _ _ _ ready_at_env_restore_error eq_refl Hne H1 H2)
    as (f & post & Hf0 & _ & _ & Hf1 & _ & Hf2).
  exists f. split; [exact Hf0|]. split; [exact Hf1|exact Hf2].
Defined.

(** ** Arguments that are empty count as missing *)

(** X17.  In a constructor call that returns, an argument that is None,
    the empty string or the port 0 is replaced: the binary by the path the
    locator finds, the log path by the null device, the port by the port of
    the allocator.  Any other binary, log path or port is taken as it is,
    unchecked; the three flags, the data directory and the dump file are
    stored as given; and the binary of the instance is never empty. *)
Theorem init_defaults env a w self :
  __init__ env a w = Ok self ->
  mongod_bin self <> ""
  /\ (truthy_str (arg_mongod_bin a) = true ->
      arg_mongod_bin a = Some (mongod_bin self))
  /\ (truthy_str (arg_mongod_bin a) = false ->
      find_executable env MONGOD_BIN = Some (mongod_bin self))
  /\ (truthy_str (arg_log_path a) = true ->
      arg_log_path a = Some (log_path self))
  /\ (truthy_str (arg_log_path a) = false -> log_path self = devnull)
  /\ (truthy_int (arg_port a) = true -> arg_port a = Some (port self))
  /\ (truthy_int (arg_port a) = false -> port self = get_free_port env)
  /\ scripting self = arg_scripting a
  /\ prealloc self = arg_prealloc a
  /\ auth self = arg_auth a
  /\ db_path self = arg_db_path a
  /\ dump_file self = arg_dump_file a
  /\ _db_path_is_temporary self = None.
Proof.
  unfold __init__, or_str.
  destruct (truthy_str (arg_mongod_bin a)) eqn:Hbin.
  - destruct (truthy_str_true _ Hbin) as (b & Hb & Hne). rewrite Hb.
    destruct (String.eqb_spec b ""); [contradiction|].
    destruct (truthy_str (arg_db_path a) && _); [discriminate|].
    intros [= <-]. simpl.
    split; [assumption|]. split; [reflexivity|]. split; [discriminate|].
    unfold or_int.
    destruct (arg_log_path a) as [l|]; simpl;
      [destruct (String.eqb l ""); simpl|];
      (destruct (arg_port a) as [prt|]; simpl; [destruct (prt =? 0); simpl|]);
      repeat split; intros; congruence.
  - destruct (find_executable env MONGOD_BIN) as [b|]; [|discriminate].
    destruct (String.eqb_spec b ""); [discriminate|].
    destruct (truthy_str (arg_db_path a) && _); [discriminate|].
    intros [= <-]. simpl.
    split; [assumption|]. split; [discriminate|]. split; [reflexivity|].
    unfold or_int.
    destruct (arg_log_path a) as [l|]; simpl;
      [destruct (String.eqb l ""); simpl|];
      (destruct (arg_port a) as [prt|]; simpl; [destruct (prt =? 0); simpl|]);
      repeat split; intros; congruence.
Qed.

Lemma init_defaults_witness :
  __init__ env_up args_port_70000 world0 = Ok
    {| mongod_bin := "/usr/bin/mongod"; port := 70000; log_path := devnull;
       scripting := true; prealloc := false; db_path := None; auth := false;
       dump_file := None; process := None; _db_path_is_temporary := None |}
  /\ find_executable env_up MONGOD_BIN = Some "/usr/bin/mongod".
Proof.
  split; [reflexivity|].
  destruct (init_defaults env_up args_port_70000 world0 _ eq_refl)
    as (_ & _ & Hloc & _).
  exact (Hloc eq_refl).
Defined.
